(** * Broken Metropolis-Hastings on a 1D Gaussian

    A shallow embedding of the notebook
    [change_detection/notebooks/broken_MCMC_MH_1DGaussian.ipynb]:
    the fault-injecting sampler [BrokenMH], the divergence metric
    [NormalDist.kl_divergence] and the experiment driver [get_klds].

    Conventions of the embedding.
    - Python floats are read as real numbers ([R]); rounding is not
      modelled.  Where numpy yields [inf] or [nan] instead of a real
      number the model says so explicitly ([NonFinite]).
    - The two process-wide generators the notebook seeds ([random] and
      [numpy.random]) are threaded through every call as a [World].
    - The library code the notebook builds on is not part of the
      repository.  What [BrokenMH] inherits from
      [pints.MetropolisRandomWalkMCMC] is an interface ([Library]); the
      controller loop is modelled from the spec's description of it;
      numpy's array functions are written out for one-dimensional data. *)

From Stdlib Require Import Reals Lra Lia List ZArith Bool.
Import ListNotations.
Open Scope R_scope.

(* ================================================================= *)
(** * Part I: the program *)

(* ----------------------------------------------------------------- *)
(** ** Python's [random] module *)

Module PyRandom.

(** The generator is a stream of 53-bit integers together with the
    position of the next one: [random.random()] returns [k / 2^53] for
    the next integer [k] and moves on. *)
Record t : Type := mk { bits : nat -> Z; cursor : nat }.

Definition two53 : Z := 9007199254740992.

(** The value the next call of [random.random()] returns. *)
Definition peek (g : t) : R :=
  IZR (bits g (cursor g) mod two53) / IZR two53.

Definition advance (g : t) : t :=
  {| bits := bits g; cursor := S (cursor g) |}.

(** [random.random()] *)
Definition random (g : t) : R * t := (peek g, advance g).

(** [random.seed(a)]: the stream is a function of the seed alone
    ([stream] gives the generator's output for each seed). *)
Definition seed (stream : Z -> nat -> Z) (a : Z) (_ : t) : t :=
  {| bits := stream a; cursor := 0 |}.

End PyRandom.

(* ----------------------------------------------------------------- *)
(** ** The fault decision of [BrokenMH.tell] *)

(** Which of the two arms of [tell] runs. *)
Inductive Branch : Type :=
| MHStep
| ForcedAccept.

(** The condition of [tell],
    [self.error_freq == 0.0 or random.random() > self.error_freq],
    with Python's short-circuit [or]: the generator is consulted only
    when the first disjunct is false.  [MHStep] is the [if] arm,
    [ForcedAccept] the [else] arm. *)
Definition fault_decision (error_freq : R) (g : PyRandom.t)
  : Branch * PyRandom.t :=
  if Req_dec_T error_freq 0 then (MHStep, g)
  else
    let (u, g') := PyRandom.random g in
    if Rgt_dec u error_freq then (MHStep, g') else (ForcedAccept, g').

(** Number of values the condition takes from the generator. *)
Definition draws_taken (error_freq : R) (g : PyRandom.t) : nat :=
  (PyRandom.cursor (snd (fault_decision error_freq g)) - PyRandom.cursor g)%nat.

(* ----------------------------------------------------------------- *)
(** ** Sampler state *)

(** The attributes of [pints.MetropolisRandomWalkMCMC] that
    [BrokenMH.tell] reads and writes; [_rest] stands for the attributes
    of the base class that the subclass never touches (start point,
    proposal covariance, the running flag). *)
Record MetropolisRandomWalkMCMC (Point Rest : Type) : Type := mkMH {
  _rest : Rest;
  _current : option Point;
  _current_log_pdf : option R;
  _proposed : option Point;
  _iterations : nat;
  _acceptance : R
}.

Arguments mkMH {Point Rest} _ _ _ _ _ _.
Arguments _rest {Point Rest} _.
Arguments _current {Point Rest} _.
Arguments _current_log_pdf {Point Rest} _.
Arguments _proposed {Point Rest} _.
Arguments _iterations {Point Rest} _.
Arguments _acceptance {Point Rest} _.

(** [class BrokenMH(pints.MetropolisRandomWalkMCMC)]: the inherited
    attributes and [error_freq]. *)
Record BrokenMH (Point Rest : Type) : Type := mkBrokenMH {
  super : MetropolisRandomWalkMCMC Point Rest;
  error_freq : R
}.

Arguments mkBrokenMH {Point Rest} _ _.
Arguments super {Point Rest} _.
Arguments error_freq {Point Rest} _.

(** The two global generators: Python's and numpy's. *)
Record World (NpRandom : Type) : Type := mkWorld {
  random_state : PyRandom.t;
  np_random_state : NpRandom
}.

Arguments mkWorld {NpRandom} _ _.
Arguments random_state {NpRandom} _.
Arguments np_random_state {NpRandom} _.

(** What the notebook takes from its libraries: the methods [BrokenMH]
    inherits (each may read and advance the generators), and the two
    seeding functions.  [Point] is a point of parameter space, [Sigma]
    the optional proposal-covariance hint, [NpRandom] the state of
    numpy's generator. *)
Class Library (Point Rest Sigma NpRandom : Type) : Type := {
  super_init : Point -> option Sigma -> MetropolisRandomWalkMCMC Point Rest;
  super_ask :
    MetropolisRandomWalkMCMC Point Rest -> World NpRandom ->
    Point * MetropolisRandomWalkMCMC Point Rest * World NpRandom;
  super_tell :
    MetropolisRandomWalkMCMC Point Rest -> R -> World NpRandom ->
    option Point * MetropolisRandomWalkMCMC Point Rest * World NpRandom;
  random_stream : Z -> nat -> Z;
  np_seeded : Z -> NpRandom
}.

(** The controller's settings as [get_klds] uses them.  Every
    controller of the notebook has one chain (second argument [1], one
    start point), so the record holds that chain's sampler. *)
Record MCMCController (Point Rest : Type) : Type := mkController {
  _log_pdf : Point -> R;
  _sampler : BrokenMH Point Rest;
  _max_iterations : nat;
  _log_to_screen : bool
}.

Arguments mkController {Point Rest} _ _ _ _.
Arguments _log_pdf {Point Rest} _.
Arguments _sampler {Point Rest} _.
Arguments _max_iterations {Point Rest} _.
Arguments _log_to_screen {Point Rest} _.

(* ----------------------------------------------------------------- *)
(** ** [BrokenMH] *)

Section Sampler.

Context {Point Rest Sigma NpRandom : Type}.
Context {L : Library Point Rest Sigma NpRandom}.

Definition with_random (w : World NpRandom) (g : PyRandom.t) : World NpRandom :=
  {| random_state := g; np_random_state := np_random_state w |}.

(** [BrokenMH.__init__] *)
Definition BrokenMH_init (x0 : Point) (sigma0 : option Sigma)
  : BrokenMH Point Rest :=
  {| super := super_init x0 sigma0; error_freq := 0 |}.

(** [BrokenMH.set_error_freq] *)
Definition set_error_freq (s : BrokenMH Point Rest) (error_freq : R)
  : BrokenMH Point Rest :=
  {| super := super s; error_freq := error_freq |}.

(** [ask] is inherited unchanged. *)
Definition ask (s : BrokenMH Point Rest) (w : World NpRandom)
  : Point * BrokenMH Point Rest * World NpRandom :=
  let '(x, b, w') := super_ask (super s) w in
  (x, {| super := b; error_freq := error_freq s |}, w').

(** The [if] arm of [tell]: [return super().tell(fx)]. *)
Definition delegate (s : BrokenMH Point Rest) (fx : R) (w : World NpRandom)
  : option Point * BrokenMH Point Rest * World NpRandom :=
  let '(y, b, w') := super_tell (super s) fx w in
  (y, {| super := b; error_freq := error_freq s |}, w').

(** The [else] arm of [tell]: its assignments, in order, and the value
    returned. *)
Definition forced_accept (s : BrokenMH Point Rest) (fx : R)
  : option Point * BrokenMH Point Rest :=
  let b := super s in
  let acceptance :=
    (INR (_iterations b) * _acceptance b + 1) / (INR (_iterations b) + 1) in
  let iterations := S (_iterations b) in
  let current := _proposed b in
  let b' := {| _rest := _rest b;
               _current := current;
               _current_log_pdf := Some fx;
               _proposed := None;
               _iterations := iterations;
               _acceptance := acceptance |} in
  (_current b', {| super := b'; error_freq := error_freq s |}).

(** [BrokenMH.tell] *)
Definition tell (s : BrokenMH Point Rest) (fx : R) (w : World NpRandom)
  : option Point * BrokenMH Point Rest * World NpRandom :=
  let (branch, g) := fault_decision (error_freq s) (random_state w) in
  let w1 := with_random w g in
  match branch with
  | MHStep => delegate s fx w1
  | ForcedAccept => let (y, s') := forced_accept s fx in (y, s', w1)
  end.

(** The arm [tell] takes in a given state and world. *)
Definition tell_branch (s : BrokenMH Point Rest) (w : World NpRandom) : Branch :=
  fst (fault_decision (error_freq s) (random_state w)).

(** The states a sampler passes through when, after construction, only
    [ask] and [tell] are called on it ([set_error_freq] never is). *)
Inductive never_configured : BrokenMH Point Rest -> Prop :=
| nc_init : forall x0 sigma0, never_configured (BrokenMH_init x0 sigma0)
| nc_ask : forall s w, never_configured s -> never_configured (snd (fst (ask s w)))
| nc_tell : forall s fx w,
    never_configured s -> never_configured (snd (fst (tell s fx w))).

(* ----------------------------------------------------------------- *)
(** ** The controller *)

(** Modelled from the spec: the controller's constructor and setters,
    which are library code outside the repository (6: a controller that
    runs the chains for a set number of iterations).
    [pints.MCMCController(log_pdf, 1, [x0], method=BrokenMH)] builds one
    sampler by [BrokenMH(x0, sigma0=None)]; until the setters are
    called the settings are 10000 iterations and logging to screen. *)
Definition MCMCController_init (log_pdf : Point -> R) (x0 : Point)
  : MCMCController Point Rest :=
  {| _log_pdf := log_pdf;
     _sampler := BrokenMH_init x0 None;
     _max_iterations := 10 * 1000;
     _log_to_screen := true |}.

Definition set_max_iterations (c : MCMCController Point Rest) (n : nat)
  : MCMCController Point Rest :=
  {| _log_pdf := _log_pdf c; _sampler := _sampler c;
     _max_iterations := n; _log_to_screen := _log_to_screen c |}.

Definition set_log_to_screen (c : MCMCController Point Rest) (b : bool)
  : MCMCController Point Rest :=
  {| _log_pdf := _log_pdf c; _sampler := _sampler c;
     _max_iterations := _max_iterations c; _log_to_screen := b |}.

(** [mcmc.samplers()]: the controller's sampler objects. *)
Definition samplers (c : MCMCController Point Rest) : list (BrokenMH Point Rest) :=
  [_sampler c].

(** The controller after a method changed its sampler object. *)
Definition with_sampler (c : MCMCController Point Rest) (s : BrokenMH Point Rest)
  : MCMCController Point Rest :=
  {| _log_pdf := _log_pdf c; _sampler := s;
     _max_iterations := _max_iterations c; _log_to_screen := _log_to_screen c |}.

(** [for s in mcmc.samplers(): s.set_error_freq(error_freq)]: the list
    holds the controller's own sampler object, so each call changes the
    sampler the controller runs. *)
Definition set_samplers_error_freq (c : MCMCController Point Rest) (error_freq : R)
  : MCMCController Point Rest :=
  fold_left (fun c' s => with_sampler c' (set_error_freq s error_freq))
    (samplers c) c.

(** Modelled from the spec: the loop of [pints.MCMCController.run],
    which is library code outside the repository.  The spec (4.2 step 3
    and 6) describes a propose/evaluate/step protocol invoked once per
    iteration and run for the configured number of iterations.  Each
    iteration is recorded as the point [ask] proposed and the reply of
    [tell]. *)
Fixpoint iterate (log_pdf : Point -> R) (n : nat)
  (s : BrokenMH Point Rest) (w : World NpRandom)
  : list (Point * option Point) * BrokenMH Point Rest * World NpRandom :=
  match n with
  | O => ([], s, w)
  | S n' =>
      let '(x, s1, w1) := ask s w in
      let fx := log_pdf x in
      let '(y, s2, w2) := tell s1 fx w1 in
      let '(later, s3, w3) := iterate log_pdf n' s2 w2 in
      ((x, y) :: later, s3, w3)
  end.

(** The points proposed during a run, in order. *)
Definition proposals (trace : list (Point * option Point)) : list Point :=
  map fst trace.

(** The replies of [tell] during a run, in order. *)
Definition replies (trace : list (Point * option Point)) : list (option Point) :=
  map snd trace.

(** The sample history of a run: the points [tell] returned. *)
Definition chain_of (trace : list (Point * option Point)) : list Point :=
  flat_map (fun it => match snd it with Some y => [y] | None => [] end) trace.

(** Modelled from the spec: [pints.MCMCController.run], returning the
    per-chain sample histories (here one chain). *)
Definition run (c : MCMCController Point Rest) (w : World NpRandom)
  : list (list Point) * MCMCController Point Rest * World NpRandom :=
  let '(trace, s, w') := iterate (_log_pdf c) (_max_iterations c) (_sampler c) w in
  ([chain_of trace], with_sampler c s, w').

(** The state of the sampler after [n] iterations of the loop. *)
Definition sampler_after (log_pdf : Point -> R) (n : nat)
  (s : BrokenMH Point Rest) (w : World NpRandom) : BrokenMH Point Rest :=
  snd (fst (iterate log_pdf n s w)).

(** The iterations of a run, as recorded. *)
Definition trace_of (log_pdf : Point -> R) (n : nat)
  (s : BrokenMH Point Rest) (w : World NpRandom) : list (Point * option Point) :=
  fst (fst (iterate log_pdf n s w)).

End Sampler.

(* ----------------------------------------------------------------- *)
(** ** numpy on one-dimensional data *)

Module Np.

(** A float64 result: a real number, or [inf]/[nan]. *)
Inductive float64 : Type :=
| Real (r : R)
| NonFinite.

Definition total (xs : list R) : R := fold_right Rplus 0 xs.

(** [np.mean(samples, axis=0)] for an n-by-1 array, given as its
    column; the mean of an empty array is [nan]. *)
Definition mean (xs : list R) : float64 :=
  match xs with
  | [] => NonFinite
  | _ => Real (total xs / INR (length xs))
  end.

(** [np.cov(samples.T)] for an n-by-1 array: one variable, n
    observations, default arguments ([bias=False], [ddof=None]), so the
    normalisation is by [n - 1].  numpy subtracts the average, takes the
    product of the centred row with itself and multiplies by
    [1 / (n - 1)]; with fewer than two observations the factor is not
    positive and the result is not a number. *)
Definition cov (xs : list R) : float64 :=
  let n := length xs in
  let avg := total xs / INR n in
  let centred := map (fun x => x - avg) xs in
  let c := total (map (fun d => d * d) centred) in
  if (n <=? 1)%nat then NonFinite
  else Real (c * (1 / (INR n - 1))).

(** [np.linalg.inv] of a 1-by-1 matrix; [None] is [LinAlgError]
    (singular matrix). *)
Definition linalg_inv (a : R) : option R :=
  if Req_dec_T a 0 then None else Some (/ a).

(** [np.linalg.det], [np.trace] and [dot] of 1-by-1 matrices. *)
Definition linalg_det (a : R) : R := a.
Definition trace (a : R) : R := a.
Definition dot (a b : R) : R := a * b.

(** Float division: a zero divisor gives [inf] or [nan]. *)
Definition divide (a b : R) : float64 :=
  if Req_dec_T b 0 then NonFinite else Real (a / b).

(** [np.log]: [-inf] at zero and [nan] below. *)
Definition log (a : float64) : float64 :=
  match a with
  | Real r => if Rlt_dec 0 r then Real (ln r) else NonFinite
  | NonFinite => NonFinite
  end.

End Np.

(* ----------------------------------------------------------------- *)
(** ** [NormalDist] *)

Inductive exn : Type :=
| LinAlgError.

Inductive result (A : Type) : Type :=
| Return (a : A)
| Raise (e : exn).

Arguments Return {A} _.
Arguments Raise {A} _.

(** [class NormalDist(pints.toy.GaussianLogPDF)] for one parameter:
    the mean vector and the covariance matrix have one entry each. *)
Record NormalDist : Type := mkNormalDist {
  _mean : R;
  _sigma : R;
  _n_parameters : nat
}.

(** [NormalDist(np.array([mean]), np.array([sigma]))]: the inherited
    constructor stores the mean, the 1-by-1 covariance matrix and the
    number of parameters. *)
Definition NormalDist_init (mean sigma : R) : NormalDist :=
  {| _mean := mean; _sigma := sigma; _n_parameters := 1 |}.

(** The three terms of the divergence, as [kl_divergence] computes
    them from the inverse [cov_inv] of the target's covariance [s1],
    the empirical mean [m0] and covariance [s0] and the target's mean
    [m1].  Transposing a vector of one entry changes nothing. *)
Definition dkl1 (cov_inv s0 : R) : R :=
  Np.trace (Np.dot cov_inv s0).

Definition dkl2 (m0 m1 cov_inv : R) : R :=
  Np.dot (Np.dot (m1 - m0) cov_inv) (m1 - m0).

Definition dkl3 (s0 s1 : R) : Np.float64 :=
  Np.log (Np.divide (Np.linalg_det s1) (Np.linalg_det s0)).

(** [NormalDist.kl_divergence], for the n-by-1 array [samples] given
    as its column.  [np.cov] returns a 0-dimensional array here, so the
    [s0.ndim < 2] branch reshapes it to 1-by-1. *)
Definition kl_divergence (d : NormalDist) (samples : list R)
  : result Np.float64 :=
  let m0 := Np.mean samples in
  let m1 := _mean d in
  let s0 := Np.cov samples in
  let s1 := _sigma d in
  match Np.linalg_inv s1 with
  | None => Raise LinAlgError
  | Some cov_inv =>
      match m0, s0 with
      | Np.Real m0, Np.Real s0 =>
          match dkl3 s0 s1 with
          | Np.Real log_ratio =>
              Return (Np.Real (0.5 * (dkl1 cov_inv s0 + dkl2 m0 m1 cov_inv
                                      + log_ratio - INR (_n_parameters d))))
          | Np.NonFinite => Return Np.NonFinite
          end
      | _, _ => Return Np.NonFinite
      end
  end.

(** The covariance the spec's sentence describes: divisor [n]. *)
Definition population_covariance (xs : list R) : R :=
  let n := INR (length xs) in
  let avg := Np.total xs / n in
  Np.total (map (fun x => (x - avg) * (x - avg)) xs) / n.

(** The sample-corrected covariance: divisor [n - 1]. *)
Definition sample_covariance (xs : list R) : R :=
  let n := INR (length xs) in
  let avg := Np.total xs / n in
  Np.total (map (fun x => (x - avg) * (x - avg)) xs) / (n - 1).

(** The closed form of the divergence between a Gaussian with mean
    [m0] and variance [s0] and the target [d]. *)
Definition gaussian_kl (d : NormalDist) (m0 s0 : R) : R :=
  0.5 * (s0 / _sigma d
         + (_mean d - m0) * (_mean d - m0) / _sigma d
         + ln (_sigma d / s0)
         - INR (_n_parameters d)).

(* ----------------------------------------------------------------- *)
(** ** The experiment driver *)

Section Driver.

Context {Rest Sigma NpRandom : Type}.
Context {L : Library R Rest Sigma NpRandom}.

(** The target's log-density at a point (inherited
    [GaussianLogPDF.__call__]). *)
Variable log_pdf : NormalDist -> R -> R.

(** [posterior] and [x0] of [get_klds]. *)
Definition posterior : NormalDist := NormalDist_init 1 (0.1 ^ 2).
Definition x0 : R := 1.

(** The controller of run [run], as the loop body sets it up before
    [mcmc.run()]. *)
Definition configure (run : nat) (start_breaking : Z) (error_freq : R)
  : MCMCController R Rest :=
  let mcmc := MCMCController_init (log_pdf posterior) x0 in
  let mcmc := set_max_iterations mcmc 1000 in
  let mcmc :=
    if (Z.of_nat run >=? start_breaking)%Z
    then set_samplers_error_freq mcmc error_freq
    else mcmc in
  set_log_to_screen mcmc false.

(** One pass through the body of the [for] loop: the divergence of the
    run and the generators as the run leaves them. *)
Definition one_run (run_index : nat) (start_breaking : Z) (error_freq : R)
  (w : World NpRandom) : result (Np.float64 * World NpRandom) :=
  let mcmc := configure run_index start_breaking error_freq in
  let '(chains, _, w') := run mcmc w in
  match kl_divergence posterior (nth 0 chains []) with
  | Return kld => Return (kld, w')
  | Raise e => Raise e
  end.

(** [for run in range(num_runs): ...; klds.append(kld)] *)
Fixpoint runs_loop (runs : list nat) (start_breaking : Z) (error_freq : R)
  (klds : list Np.float64) (w : World NpRandom)
  : result (list Np.float64 * World NpRandom) :=
  match runs with
  | [] => Return (klds, w)
  | r :: later =>
      match one_run r start_breaking error_freq w with
      | Return (kld, w') =>
          runs_loop later start_breaking error_freq (klds ++ [kld]) w'
      | Raise e => Raise e
      end
  end.

(** [get_klds] *)
Definition get_klds (num_runs : nat) (start_breaking : Z) (error_freq : R)
  (w : World NpRandom) : result (list Np.float64 * World NpRandom) :=
  runs_loop (seq 0 num_runs) start_breaking error_freq [] w.

(** The generators as they stand when run [r] begins. *)
Fixpoint world_before (r : nat) (start_breaking : Z) (error_freq : R)
  (w : World NpRandom) : World NpRandom :=
  match r with
  | O => w
  | S r' =>
      snd (run (configure r' start_breaking error_freq)
               (world_before r' start_breaking error_freq w))
  end.

(** The sample history of run [r]: [chains[0]]. *)
Definition chain_of_run (r : nat) (start_breaking : Z) (error_freq : R)
  (w : World NpRandom) : list R :=
  nth 0 (fst (fst (run (configure r start_breaking error_freq)
                       (world_before r start_breaking error_freq w)))) [].

(** The iterations of run [r], as the controller loop makes them. *)
Definition trace_of_run (r : nat) (start_breaking : Z) (error_freq : R)
  (w : World NpRandom) : list (R * option R) :=
  let mcmc := configure r start_breaking error_freq in
  trace_of (_log_pdf mcmc) (_max_iterations mcmc) (_sampler mcmc)
    (world_before r start_breaking error_freq w).

(** [random.seed(a); np.random.seed(b)] *)
Definition seed_generators (a b : Z) (w : World NpRandom) : World NpRandom :=
  {| random_state := PyRandom.seed random_stream a (random_state w);
     np_random_state := np_seeded b |}.

(** The experiment cell, up to the divergence series:
    [random.seed(1000); np.random.seed(1000); klds = get_klds(60, 30, 0.15)]. *)
Definition experiment (w : World NpRandom)
  : result (list Np.float64 * World NpRandom) :=
  get_klds 60 30 0.15 (seed_generators 1000 1000 w).

End Driver.

(* ----------------------------------------------------------------- *)
(** ** What the protocol expects of the library *)

Section Contracts.

Context {Point Rest Sigma NpRandom : Type}.
Context (L : Library Point Rest Sigma NpRandom).

(** [ask] returns the point it leaves pending in [_proposed], and does
    not touch the counters. *)
Definition ask_protocol : Prop :=
  forall b w,
    let '(x, b', _) := super_ask b w in
    _proposed b' = Some x /\
    _iterations b' = _iterations b /\
    _acceptance b' = _acceptance b.

(** A newly constructed sampler has made no iteration and accepted
    nothing. *)
Definition fresh_counters : Prop :=
  forall x0 sigma0,
    _iterations (super_init x0 sigma0) = 0%nat /\
    _acceptance (super_init x0 sigma0) = 0.

End Contracts.

(* ----------------------------------------------------------------- *)
(** ** A one-dimensional instance of the library *)

Module Metropolis1D.

(** numpy's generator: the normal and the uniform variates it will
    hand out, and the position in both. *)
Record generator : Type := mkGenerator {
  normals : nat -> R;
  uniforms : nat -> R;
  position : nat
}.

Definition next (w : World generator) : World generator :=
  let g := np_random_state w in
  {| random_state := random_state w;
     np_random_state := {| normals := normals g; uniforms := uniforms g;
                           position := S (position g) |} |}.

(** Modelled from the spec: the constructor of the library's sampler,
    which is outside the repository (4.2 step 1: iteration count 0,
    acceptance rate 0, fixed start point).  [_rest] keeps the start
    point. *)
Definition init (x0 : R) (sigma0 : option R) : MetropolisRandomWalkMCMC R R :=
  {| _rest := x0; _current := None; _current_log_pdf := None;
     _proposed := None; _iterations := 0; _acceptance := 0 |}.

Definition propose (b : MetropolisRandomWalkMCMC R R) (x : R)
  : MetropolisRandomWalkMCMC R R :=
  {| _rest := _rest b; _current := _current b;
     _current_log_pdf := _current_log_pdf b; _proposed := Some x;
     _iterations := _iterations b; _acceptance := _acceptance b |}.

(** Modelled from the spec: the library's [ask] (6: the propose step of
    the protocol).  A pending proposal is returned again; the first
    proposal is the start point; later ones are a random-walk step from
    the current sample. *)
Definition ask (b : MetropolisRandomWalkMCMC R R) (w : World generator)
  : R * MetropolisRandomWalkMCMC R R * World generator :=
  match _proposed b with
  | Some x => (x, b, w)
  | None =>
      match _current b with
      | None => (_rest b, propose b (_rest b), w)
      | Some c =>
          let g := np_random_state w in
          let x := c + normals g (position g) in
          (x, propose b x, next w)
      end
  end.

Definition settle (b : MetropolisRandomWalkMCMC R R)
  (current : option R) (current_log_pdf : option R) (accepted : R)
  : MetropolisRandomWalkMCMC R R :=
  {| _rest := _rest b; _current := current;
     _current_log_pdf := current_log_pdf; _proposed := None;
     _iterations := S (_iterations b);
     _acceptance :=
       (INR (_iterations b) * _acceptance b + accepted)
       / (INR (_iterations b) + 1) |}.

(** Modelled from the spec: the library's [tell] (4.1: accept the
    proposal with probability [min(1, exp(fx - current_log_density))],
    update the running acceptance rate, advance the iteration count,
    return the current sample).  The first point has nothing to be
    compared with and is taken as it is. *)
Definition tell (b : MetropolisRandomWalkMCMC R R) (fx : R) (w : World generator)
  : option R * MetropolisRandomWalkMCMC R R * World generator :=
  match _current_log_pdf b with
  | None =>
      let b' := {| _rest := _rest b; _current := _proposed b;
                   _current_log_pdf := Some fx; _proposed := None;
                   _iterations := S (_iterations b);
                   _acceptance := _acceptance b |} in
      (_current b', b', w)
  | Some f0 =>
      let g := np_random_state w in
      let u := uniforms g (position g) in
      let b' :=
        if Rlt_dec u (exp (fx - f0))
        then settle b (_proposed b) (Some fx) 1
        else settle b (_current b) (Some f0) 0 in
      (_current b', b', next w)
  end.

(** The instance, for given families of variates by seed. *)
Definition library (stream : Z -> nat -> Z) (normal uniform : Z -> nat -> R)
  : Library R R R generator :=
  {| super_init := init;
     super_ask := ask;
     super_tell := tell;
     random_stream := stream;
     np_seeded := fun a => {| normals := normal a; uniforms := uniform a;
                              position := 0 |} |}.

(** A fixed choice of variates, and generators at their start. *)
Definition lib0 : Library R R R generator :=
  library (fun _ _ => 0%Z) (fun _ _ => 0) (fun _ _ => / 2).

Definition world0 : World generator :=
  {| random_state := PyRandom.mk (fun _ => 0%Z) 0;
     np_random_state := {| normals := fun _ => 0; uniforms := fun _ => / 2;
                           position := 0 |} |}.

End Metropolis1D.

(** A sampler of the instance with error frequency 1. *)
Definition always_failing : BrokenMH R R :=
  set_error_freq (BrokenMH_init (L := Metropolis1D.lib0) 1 None) 1.

(** Three samples whose mean and sample-corrected covariance are those
    of the target of [get_klds]. *)
Definition matching_samples : list R := [0.9; 1; 1.1].

(* ----------------------------------------------------------------- *)
(** ** The unmodified sampler under the same loop *)

Section PlainSampler.

Context {Point Rest Sigma NpRandom : Type}.
Context {L : Library Point Rest Sigma NpRandom}.

(** Modelled from the spec: the controller loop of [iterate] with
    [method=pints.MetropolisRandomWalkMCMC], the sampler [BrokenMH]
    derives from: the same protocol, with the inherited [ask] and
    [tell] called directly. *)
Fixpoint iterate_plain (log_pdf : Point -> R) (n : nat)
  (b : MetropolisRandomWalkMCMC Point Rest) (w : World NpRandom)
  : list (Point * option Point) * MetropolisRandomWalkMCMC Point Rest
    * World NpRandom :=
  match n with
  | O => ([], b, w)
  | S n' =>
      let '(x, b1, w1) := super_ask b w in
      let fx := log_pdf x in
      let '(y, b2, w2) := super_tell b1 fx w1 in
      let '(later, b3, w3) := iterate_plain log_pdf n' b2 w2 in
      ((x, y) :: later, b3, w3)
  end.

End PlainSampler.

(* ----------------------------------------------------------------- *)
(** ** The plotted series of the experiment cell *)

Module Py.

(** A bound of a slice [l[start:stop]] (step 1) on a sequence of
    length [len]: an omitted bound takes its default, a negative one
    counts from the end, and both are clipped to [0, len]. *)
Definition slice_bound (len default : nat) (i : option Z) : nat :=
  match i with
  | None => default
  | Some z =>
      if (z <? 0)%Z
      then Z.to_nat (Z.max 0 (Z.of_nat len + z))
      else Nat.min (Z.to_nat z) len
  end.

(** [l[start:stop]]; empty when the bounds cross. *)
Definition slice {A : Type} (l : list A) (start stop : option Z) : list A :=
  let len := length l in
  let a := slice_bound len 0 start in
  let b := slice_bound len len stop in
  firstn (b - a) (skipn a l).

End Py.

(** The two series the experiment cell plots in its second panel,
    [runs[:-window_size]] against [R[window_size, window_size:-1]],
    with [runs = np.arange(len(klds))]; [None] is the [IndexError] of a
    row index beyond the matrix. *)
Definition changepoint_series (n_klds : nat) (Rm : list (list R))
  (window_size : nat) : option (list nat * list R) :=
  let runs := seq 0 n_klds in
  match nth_error Rm window_size with
  | None => None
  | Some row =>
      Some (Py.slice runs None (Some (- Z.of_nat window_size)%Z),
            Py.slice row (Some (Z.of_nat window_size)) (Some (-1)%Z))
  end.

(* ----------------------------------------------------------------- *)
(** ** The program against a library that may answer in several ways *)

(** For reproducibility the library calls are not taken to be
    functions: each is a relation between the state and generators it
    is called with and a result it may give.  The seeding functions
    give the generators a seed starts from. *)
Class Outcomes (Point Rest Sigma NpRandom : Type) : Type := {
  init_outcome :
    Point -> option Sigma -> MetropolisRandomWalkMCMC Point Rest -> Prop;
  ask_outcome :
    MetropolisRandomWalkMCMC Point Rest -> World NpRandom ->
    Point * MetropolisRandomWalkMCMC Point Rest * World NpRandom -> Prop;
  super_tell_outcome :
    MetropolisRandomWalkMCMC Point Rest -> R -> World NpRandom ->
    option Point * MetropolisRandomWalkMCMC Point Rest * World NpRandom -> Prop;
  seed_stream : Z -> nat -> Z;
  np_seed_state : Z -> NpRandom
}.

(** A library of functions, seen as one that answers in one way. *)
Definition outcomes_of {Point Rest Sigma NpRandom : Type}
  (L : Library Point Rest Sigma NpRandom) : Outcomes Point Rest Sigma NpRandom :=
  {| init_outcome := fun x0 sigma0 b => b = super_init x0 sigma0;
     ask_outcome := fun b w out => out = super_ask b w;
     super_tell_outcome := fun b fx w out => out = super_tell b fx w;
     seed_stream := random_stream;
     np_seed_state := np_seeded |}.

(** Every call of the library has at most one result. *)
Definition deterministic_library {Point Rest Sigma NpRandom : Type}
  (O : Outcomes Point Rest Sigma NpRandom) : Prop :=
  (forall x0 sigma0 b1 b2,
     init_outcome x0 sigma0 b1 -> init_outcome x0 sigma0 b2 -> b1 = b2) /\
  (forall b w out1 out2,
     ask_outcome b w out1 -> ask_outcome b w out2 -> out1 = out2) /\
  (forall b fx w out1 out2,
     super_tell_outcome b fx w out1 -> super_tell_outcome b fx w out2 ->
     out1 = out2).

Section SamplerOutcomes.

Context {Point Rest Sigma NpRandom : Type}.
Context {O : Outcomes Point Rest Sigma NpRandom}.

(** The results a call of [BrokenMH.tell] may give: the condition is
    evaluated as in [tell]; the [if] arm gives what the inherited
    [tell] may give, the [else] arm makes its assignments. *)
Inductive tell_outcome (s : BrokenMH Point Rest) (fx : R) (w : World NpRandom)
  : option Point * BrokenMH Point Rest * World NpRandom -> Prop :=
| tell_delegates : forall g y b w',
    fault_decision (error_freq s) (random_state w) = (MHStep, g) ->
    super_tell_outcome (super s) fx (with_random w g) (y, b, w') ->
    tell_outcome s fx w (y, {| super := b; error_freq := error_freq s |}, w')
| tell_forces : forall g,
    fault_decision (error_freq s) (random_state w) = (ForcedAccept, g) ->
    tell_outcome s fx w
      (fst (forced_accept s fx), snd (forced_accept s fx), with_random w g).

(** Modelled from the spec: the results the controller loop of
    [iterate] may give. *)
Inductive iterate_outcome (log_pdf : Point -> R)
  : nat -> BrokenMH Point Rest -> World NpRandom ->
    list (Point * option Point) * BrokenMH Point Rest * World NpRandom -> Prop :=
| iterate_done : forall s w, iterate_outcome log_pdf 0 s w ([], s, w)
| iterate_step : forall n s w x b1 w1 y s2 w2 later s3 w3,
    ask_outcome (super s) w (x, b1, w1) ->
    tell_outcome {| super := b1; error_freq := error_freq s |} (log_pdf x) w1
      (y, s2, w2) ->
    iterate_outcome log_pdf n s2 w2 (later, s3, w3) ->
    iterate_outcome log_pdf (S n) s w ((x, y) :: later, s3, w3).

End SamplerOutcomes.

Section DriverOutcomes.

Context {Rest Sigma NpRandom : Type}.
Context {O : Outcomes R Rest Sigma NpRandom}.
Variable log_pdf : NormalDist -> R -> R.

(** The controllers the loop body of [get_klds] may set up for run
    [run]: the constructor builds the sampler, then the settings are
    made as in [configure]. *)
Inductive configure_outcome (run : nat) (start_breaking : Z) (error_freq : R)
  : MCMCController R Rest -> Prop :=
| configured : forall b,
    init_outcome x0 None b ->
    configure_outcome run start_breaking error_freq
      (let mcmc := {| _log_pdf := log_pdf posterior;
                      _sampler := mkBrokenMH b 0;
                      _max_iterations := 10 * 1000;
                      _log_to_screen := true |} in
       let mcmc := set_max_iterations mcmc 1000 in
       let mcmc :=
         if (Z.of_nat run >=? start_breaking)%Z
         then set_samplers_error_freq mcmc error_freq
         else mcmc in
       set_log_to_screen mcmc false).

(** The results one pass through the loop body may give. *)
Inductive one_run_outcome (run_index : nat) (start_breaking : Z) (error_freq : R)
  (w : World NpRandom) : result (Np.float64 * World NpRandom) -> Prop :=
| one_run_ends : forall mcmc trace s w',
    configure_outcome run_index start_breaking error_freq mcmc ->
    iterate_outcome (_log_pdf mcmc) (_max_iterations mcmc) (_sampler mcmc) w
      (trace, s, w') ->
    one_run_outcome run_index start_breaking error_freq w
      (match kl_divergence posterior (nth 0 [chain_of trace] []) with
       | Return kld => Return (kld, w')
       | Raise e => Raise e
       end).

(** The results the [for] loop may give from the runs still to make. *)
Inductive runs_outcome (start_breaking : Z) (error_freq : R)
  : list nat -> list Np.float64 -> World NpRandom ->
    result (list Np.float64 * World NpRandom) -> Prop :=
| runs_done : forall klds w,
    runs_outcome start_breaking error_freq [] klds w (Return (klds, w))
| runs_next : forall r later klds w kld w' out,
    one_run_outcome r start_breaking error_freq w (Return (kld, w')) ->
    runs_outcome start_breaking error_freq later (klds ++ [kld]) w' out ->
    runs_outcome start_breaking error_freq (r :: later) klds w out
| runs_raise : forall r later klds w e,
    one_run_outcome r start_breaking error_freq w (Raise e) ->
    runs_outcome start_breaking error_freq (r :: later) klds w (Raise e).

(** The results [get_klds] may give. *)
Definition get_klds_outcome (num_runs : nat) (start_breaking : Z) (error_freq : R)
  (w : World NpRandom) (out : result (list Np.float64 * World NpRandom)) : Prop :=
  runs_outcome start_breaking error_freq (seq 0 num_runs) [] w out.

(** [random.seed(a); np.random.seed(b)] *)
Definition seed_world (a b : Z) (w : World NpRandom) : World NpRandom :=
  {| random_state := PyRandom.seed seed_stream a (random_state w);
     np_random_state := np_seed_state b |}.

(** The results the experiment cell may give, up to the divergence
    series. *)
Definition experiment_outcome (w : World NpRandom)
  (out : result (list Np.float64 * World NpRandom)) : Prop :=
  get_klds_outcome 60 30 0.15 (seed_world 1000 1000 w) out.

End DriverOutcomes.

(* ================================================================= *)
(** * Part II: properties *)

(* ----------------------------------------------------------------- *)
(** ** The generator and the fault decision *)

Lemma peek_range (g : PyRandom.t) : 0 <= PyRandom.peek g < 1.
Proof.
  unfold PyRandom.peek, PyRandom.two53.
  destruct (Z.mod_pos_bound (PyRandom.bits g (PyRandom.cursor g))
              9007199254740992) as [lo hi]; [lia|].
  apply IZR_le in lo. apply IZR_lt in hi.
  split.
  - apply Rmult_le_reg_r with 9007199254740992; [lra|].
    unfold Rdiv. rewrite Rmult_assoc, Rinv_l; lra.
  - apply Rmult_lt_reg_r with 9007199254740992; [lra|].
    unfold Rdiv. rewrite Rmult_assoc, Rinv_l; lra.
Qed.

Lemma fault_decision_zero (g : PyRandom.t) :
  fault_decision 0 g = (MHStep, g).
Proof.
  unfold fault_decision. destruct (Req_dec_T 0 0) as [_|ne]; [reflexivity|].
  now destruct ne.
Qed.

Lemma fault_decision_nonzero (p : R) (g : PyRandom.t) :
  p <> 0 ->
  fault_decision p g =
  (if Rgt_dec (PyRandom.peek g) p then MHStep else ForcedAccept,
   PyRandom.advance g).
Proof.
  intros ne. unfold fault_decision.
  destruct (Req_dec_T p 0) as [e|_]; [contradiction|].
  cbn. now destruct (Rgt_dec (PyRandom.peek g) p).
Qed.

Lemma fault_decision_one (g : PyRandom.t) :
  fault_decision 1 g = (ForcedAccept, PyRandom.advance g).
Proof.
  rewrite fault_decision_nonzero by lra.
  destruct (Rgt_dec (PyRandom.peek g) 1) as [gt|_]; [|reflexivity].
  pose proof (peek_range g). lra.
Qed.

(** The forced arm is taken exactly when the frequency is positive and
    the drawn value does not exceed it. *)
Lemma fault_decision_forced (p : R) (g : PyRandom.t) :
  fst (fault_decision p g) = ForcedAccept <-> 0 < p /\ PyRandom.peek g <= p.
Proof.
  pose proof (peek_range g) as range.
  destruct (Req_dec_T p 0) as [e|ne].
  - subst p. rewrite fault_decision_zero. cbn. split; [discriminate|lra].
  - rewrite fault_decision_nonzero by assumption. cbn.
    destruct (Rgt_dec (PyRandom.peek g) p) as [gt|ngt].
    + split; [discriminate|lra].
    + split; [intros _|reflexivity].
      apply Rnot_gt_le in ngt.
      destruct (Rle_lt_dec p 0) as [le|lt]; [|split; lra].
      exfalso. apply ne. lra.
Qed.

Lemma draws_taken_zero (g : PyRandom.t) : draws_taken 0 g = 0%nat.
Proof. unfold draws_taken. rewrite fault_decision_zero. cbn [snd]. lia. Qed.

Lemma draws_taken_nonzero (p : R) (g : PyRandom.t) :
  p <> 0 -> draws_taken p g = 1%nat.
Proof.
  intros ne. unfold draws_taken. rewrite fault_decision_nonzero by assumption.
  cbn [snd PyRandom.advance PyRandom.cursor]. lia.
Qed.

(* ----------------------------------------------------------------- *)
(** ** [BrokenMH.tell] *)

Section SamplerFacts.

Context {Point Rest Sigma NpRandom : Type}.
Context {L : Library Point Rest Sigma NpRandom}.

Implicit Types (s : BrokenMH Point Rest) (w : World NpRandom) (fx : R).

Lemma with_random_same w : with_random w (random_state w) = w.
Proof. now destruct w. Qed.

Lemma tell_disabled s fx w :
  error_freq s = 0 -> tell s fx w = delegate s fx w.
Proof.
  intros off. unfold tell. rewrite off, fault_decision_zero.
  now rewrite with_random_same.
Qed.

Lemma tell_enabled s fx w :
  error_freq s <> 0 ->
  tell s fx w =
  let w1 := with_random w (PyRandom.advance (random_state w)) in
  if Rgt_dec (PyRandom.peek (random_state w)) (error_freq s)
  then delegate s fx w1
  else (fst (forced_accept s fx), snd (forced_accept s fx), w1).
Proof.
  intros on. unfold tell. rewrite fault_decision_nonzero by assumption.
  now destruct (Rgt_dec (PyRandom.peek (random_state w)) (error_freq s)).
Qed.

Lemma tell_always s fx w :
  error_freq s = 1 ->
  tell s fx w =
  (fst (forced_accept s fx), snd (forced_accept s fx),
   with_random w (PyRandom.advance (random_state w))).
Proof.
  intros one. unfold tell. rewrite one, fault_decision_one. reflexivity.
Qed.

Lemma delegate_error_freq s fx w :
  error_freq (snd (fst (delegate s fx w))) = error_freq s.
Proof. unfold delegate. now destruct (super_tell (super s) fx w) as [[y b] w']. Qed.

Lemma tell_error_freq s fx w :
  error_freq (snd (fst (tell s fx w))) = error_freq s.
Proof.
  unfold tell.
  destruct (fault_decision (error_freq s) (random_state w)) as [[|] g].
  - apply delegate_error_freq.
  - reflexivity.
Qed.

Lemma ask_error_freq s w :
  error_freq (snd (fst (ask s w))) = error_freq s.
Proof. unfold ask. now destruct (super_ask (super s) w) as [[x b] w']. Qed.

Lemma never_configured_off s : never_configured s -> error_freq s = 0.
Proof.
  induction 1 as [x0 sigma0 | s w _ IH | s fx w _ IH].
  - reflexivity.
  - now rewrite ask_error_freq.
  - now rewrite tell_error_freq.
Qed.

(** C2.  With error frequency 0, [BrokenMH.tell] is the unmodified
    Metropolis-Hastings [tell]: it takes the delegation arm, returns
    what the inherited [tell] returns for the same state, log-density
    and generators, updates the inherited attributes as it does, and
    leaves the generators as it leaves them (no draw of its own). *)
Theorem tell_without_faults_is_super_tell s fx w :
  error_freq s = 0 ->
  tell_branch s w = MHStep /\
  tell s fx w =
  (fst (fst (super_tell (super s) fx w)),
   {| super := snd (fst (super_tell (super s) fx w)); error_freq := 0 |},
   snd (super_tell (super s) fx w)).
Proof.
  intros off. split.
  - unfold tell_branch. now rewrite off, fault_decision_zero.
  - rewrite tell_disabled by assumption. unfold delegate. rewrite off.
    now destruct (super_tell (super s) fx w) as [[y b] w'].
Qed.

(** C3.  With [k] iterations made, acceptance rate [a] and the
    proposal pending: the forced arm of [tell] runs exactly when
    [p > 0] and the drawn [u] satisfies [u <= p]; it then sets the rate
    to [(k*a + 1)/(k + 1)], the count to [k + 1], the current sample and
    log-density to the proposed values, clears the pending proposal and
    returns the new current sample.  In every other case the
    delegation arm runs, so exactly one arm runs per call. *)
Theorem tell_forced_accept_step s fx w :
  let p := error_freq s in
  let u := PyRandom.peek (random_state w) in
  let k := _iterations (super s) in
  let a := _acceptance (super s) in
  let forced := 0 < p /\ u <= p in
  (tell_branch s w = ForcedAccept <-> forced) /\
  (tell_branch s w = MHStep <-> ~ forced) /\
  (forced ->
   let b' := {| _rest := _rest (super s);
                _current := _proposed (super s);
                _current_log_pdf := Some fx;
                _proposed := None;
                _iterations := S k;
                _acceptance := (INR k * a + 1) / (INR k + 1) |} in
   tell s fx w =
   (_current b', {| super := b'; error_freq := p |},
    with_random w (PyRandom.advance (random_state w)))) /\
  (~ forced ->
   tell s fx w =
   delegate s fx
     (with_random w (snd (fault_decision p (random_state w))))).
Proof.
  cbv zeta.
  pose proof (fault_decision_forced (error_freq s) (random_state w)) as iff.
  fold (tell_branch s w) in iff.
  split; [exact iff|].
  split.
  - rewrite <- iff. destruct (tell_branch s w); split; congruence.
  - split.
    + intros forced.
      rewrite tell_enabled by lra.
      destruct (Rgt_dec (PyRandom.peek (random_state w)) (error_freq s));
        [lra|reflexivity].
    + intros normal. rewrite <- iff in normal. unfold tell_branch in normal.
      unfold tell.
      destruct (fault_decision (error_freq s) (random_state w)) as [[|] g];
        [reflexivity|now destruct normal].
Qed.

(** C8, as the code has it.  When the error frequency is not 0, a call
    of [tell] draws exactly one value [u] of [[0,1)] and then chooses its
    arm by [u > p]; when it is 0 the [or] short-circuits, nothing is
    drawn and the call is the inherited [tell] on untouched
    generators. *)
Theorem tell_draws_unless_disabled s fx w :
  let p := error_freq s in
  let g := random_state w in
  (p <> 0 ->
   draws_taken p g = 1%nat /\
   0 <= PyRandom.peek g < 1 /\
   tell s fx w =
   let w1 := with_random w (PyRandom.advance g) in
   if Rgt_dec (PyRandom.peek g) p
   then delegate s fx w1
   else (fst (forced_accept s fx), snd (forced_accept s fx), w1)) /\
  (p = 0 ->
   draws_taken p g = 0%nat /\ tell s fx w = delegate s fx w).
Proof.
  cbv zeta. split.
  - intros on. split; [now apply draws_taken_nonzero|].
    split; [apply peek_range|]. now apply tell_enabled.
  - intros off. split; [rewrite off; apply draws_taken_zero|].
    now apply tell_disabled.
Qed.

(** C10.  A newly constructed [BrokenMH] has error frequency 0, and as
    long as [set_error_freq] is never called every [tell] takes the
    delegation arm: the forced arm is never reached. *)
Theorem fresh_sampler_never_forces :
  (forall x0 sigma0, error_freq (BrokenMH_init x0 sigma0) = 0) /\
  (forall s, never_configured s ->
     forall fx w,
       error_freq s = 0 /\
       tell_branch s w = MHStep /\
       tell_branch s w <> ForcedAccept /\
       tell s fx w = delegate s fx w).
Proof.
  split; [reflexivity|].
  intros s reach fx w.
  pose proof (never_configured_off s reach) as off.
  assert (tell_branch s w = MHStep) as arm
    by (unfold tell_branch; now rewrite off, fault_decision_zero).
  repeat split; try assumption.
  - rewrite arm. discriminate.
  - now apply tell_disabled.
Qed.

End SamplerFacts.

(* ----------------------------------------------------------------- *)
(** ** Runs of the controller loop *)

Section RunFacts.

Context {Point Rest Sigma NpRandom : Type}.
Context {L : Library Point Rest Sigma NpRandom}.

Implicit Types (s : BrokenMH Point Rest) (w : World NpRandom).
Implicit Types (trace : list (Point * option Point)).

Lemma iterate_S (log_pdf : Point -> R) n s w :
  iterate log_pdf (S n) s w =
  let a := ask s w in
  let t := tell (snd (fst a)) (log_pdf (fst (fst a))) (snd a) in
  let r := iterate log_pdf n (snd (fst t)) (snd t) in
  ((fst (fst a), fst (fst t)) :: fst (fst r), snd (fst r), snd r).
Proof.
  cbn [iterate]. destruct (ask s w) as [[x s1] w1]. cbn [fst snd].
  destruct (tell s1 (log_pdf x) w1) as [[y s2] w2]. cbn [fst snd].
  now destruct (iterate log_pdf n s2 w2) as [[later s3] w3].
Qed.

Lemma trace_length (log_pdf : Point -> R) n :
  forall s w, length (trace_of log_pdf n s w) = n.
Proof.
  unfold trace_of. induction n as [|n IH]; intros s w; [reflexivity|].
  rewrite iterate_S. cbn. now rewrite IH.
Qed.

Lemma chain_of_replies trace :
  replies trace = map Some (proposals trace) -> chain_of trace = proposals trace.
Proof.
  unfold replies, proposals, chain_of.
  induction trace as [|[x y] trace IH]; [reflexivity|].
  cbn. intros same. injection same as here later. subst y.
  cbn. now rewrite IH.
Qed.

Lemma ask_pending s w :
  ask_protocol L ->
  _proposed (super (snd (fst (ask s w)))) = Some (fst (fst (ask s w))) /\
  _iterations (super (snd (fst (ask s w)))) = _iterations (super s) /\
  _acceptance (super (snd (fst (ask s w)))) = _acceptance (super s) /\
  error_freq (snd (fst (ask s w))) = error_freq s.
Proof.
  intros protocol. unfold ask. specialize (protocol (super s) w).
  destruct (super_ask (super s) w) as [[x b] w']. cbn. tauto.
Qed.

(** A run in which every step is forced: replies, counters and rate. *)
Lemma forced_run (log_pdf : Point -> R) n :
  ask_protocol L ->
  forall s w,
    error_freq s = 1 ->
    replies (trace_of log_pdf n s w) = map Some (proposals (trace_of log_pdf n s w)) /\
    _iterations (super (sampler_after log_pdf n s w))
    = (_iterations (super s) + n)%nat /\
    _acceptance (super (sampler_after log_pdf n s w))
    * (INR (_iterations (super s)) + INR n)
    = INR (_iterations (super s)) * _acceptance (super s) + INR n.
Proof.
  intros protocol. unfold trace_of, sampler_after.
  induction n as [|n IH]; intros s w one.
  - cbn. repeat split; [lia|lra].
  - rewrite iterate_S. cbv zeta. cbn [fst snd].
    destruct (ask_pending s w protocol) as (pending & count & rate & freq).
    set (s1 := snd (fst (ask s w))) in *.
    set (x := fst (fst (ask s w))) in *.
    set (w1 := snd (ask s w)) in *.
    rewrite tell_always by congruence. cbn [fst snd].
    set (s2 := snd (forced_accept s1 (log_pdf x))).
    set (w2 := with_random w1 (PyRandom.advance (random_state w1))).
    destruct (IH s2 w2) as (replied & count' & rate');
      [subst s2; cbn; congruence|].
    assert (_iterations (super s2) = S (_iterations (super s))) as count2
      by (subst s2; cbn; congruence).
    assert (_acceptance (super s2) * (INR (_iterations (super s)) + 1)
            = INR (_iterations (super s)) * _acceptance (super s) + 1) as rate2.
    { subst s2. cbn. rewrite count, rate.
      pose proof (pos_INR (_iterations (super s))). field. lra. }
    split; [|split].
    + unfold replies, proposals in *. cbn [map fst snd forced_accept].
      rewrite pending. now rewrite replied.
    + rewrite count', count2. lia.
    + rewrite count2 in rate'. rewrite !S_INR in *. nra.
Qed.

(** C1.  With error frequency 1 every step is forced: each [tell]
    returns the point just proposed, so the recorded samples are
    exactly the proposed points, in order.  Starting from acceptance
    rate 0 with [k] iterations behind, the rate after [n >= 1]
    iterations is [n / (n + k)], and it tends to 1 as [n] grows. *)
Theorem always_failing_sampler_accepts_everything
  (log_pdf : Point -> R) s w :
  ask_protocol L ->
  error_freq s = 1 ->
  (forall s' w', error_freq s' = 1 -> tell_branch s' w' = ForcedAccept) /\
  (forall n,
     let trace := trace_of log_pdf n s w in
     length trace = n /\
     replies trace = map Some (proposals trace) /\
     chain_of trace = proposals trace /\
     _iterations (super (sampler_after log_pdf n s w))
     = (_iterations (super s) + n)%nat) /\
  (forall c,
     _log_pdf c = log_pdf -> _sampler c = s ->
     fst (fst (run c w))
     = [proposals (trace_of log_pdf (_max_iterations c) s w)]) /\
  (_acceptance (super s) = 0 ->
   (forall n, (1 <= n)%nat ->
      _acceptance (super (sampler_after log_pdf n s w))
      = INR n / (INR n + INR (_iterations (super s)))) /\
   (forall eps, 0 < eps ->
      exists N, forall n, (N <= n)%nat ->
        Rabs (_acceptance (super (sampler_after log_pdf n s w)) - 1) < eps)).
Proof.
  intros protocol one.
  assert (forall n, (1 <= n)%nat ->
            _acceptance (super s) = 0 ->
            _acceptance (super (sampler_after log_pdf n s w))
            = INR n / (INR n + INR (_iterations (super s)))) as closed_form.
  { intros n pos zero.
    destruct (forced_run log_pdf n protocol s w one) as (_ & _ & rate).
    rewrite zero in rate.
    pose proof (pos_INR (_iterations (super s))) as k_pos.
    assert (1 <= INR n) as n_pos by (change 1 with (INR 1); now apply le_INR).
    apply Rmult_eq_reg_r with (INR (_iterations (super s)) + INR n); [|lra].
    rewrite rate. field. lra. }
  split; [|split; [|split]].
  - intros s' w' one'. unfold tell_branch. now rewrite one', fault_decision_one.
  - intros n. cbv zeta.
    destruct (forced_run log_pdf n protocol s w one) as (replied & count & _).
    repeat split; try assumption.
    + apply trace_length.
    + now apply chain_of_replies.
  - intros c target sampler.
    destruct (forced_run log_pdf (_max_iterations c) protocol s w one)
      as (replied & _ & _).
    apply chain_of_replies in replied. unfold trace_of in *.
    unfold run. rewrite target, sampler.
    destruct (iterate log_pdf (_max_iterations c) s w) as [[trace s'] w'].
    cbn [fst snd] in *. now rewrite replied.
  - intros zero. split; [intros n pos; now apply closed_form|].
    intros eps eps_pos.
    set (k := INR (_iterations (super s))).
    pose proof (pos_INR (_iterations (super s))) as k_pos. fold k in k_pos.
    destruct (archimed (k / eps)) as [above _].
    exists (S (Z.to_nat (up (k / eps)))).
    intros n large.
    rewrite closed_form by (assumption || lia). fold k.
    assert (1 <= INR n) as n_pos
      by (change 1 with (INR 1); apply le_INR; lia).
    assert (k / eps < INR n) as beyond.
    { apply Rlt_le_trans with (IZR (up (k / eps))); [exact above|].
      assert (0 <= k / eps) as ratio_pos
        by (apply Rmult_le_pos; [lra|left; now apply Rinv_0_lt_compat]).
      assert (0 < up (k / eps))%Z as up_pos
        by (apply lt_IZR; lra).
      rewrite <- (Z2Nat.id (up (k / eps))) by lia.
      rewrite <- INR_IZR_INZ. apply le_INR. lia. }
    assert (k < INR n * eps) as bound.
    { apply Rmult_lt_compat_r with (r := eps) in beyond; [|assumption].
      unfold Rdiv in beyond. rewrite Rmult_assoc, Rinv_l in beyond; lra. }
    replace (INR n / (INR n + k) - 1) with (- (k / (INR n + k)))
      by (field; lra).
    rewrite Rabs_Ropp, Rabs_pos_eq
      by (apply Rmult_le_pos; [lra|left; apply Rinv_0_lt_compat; lra]).
    apply Rmult_lt_reg_r with (INR n + k); [lra|].
    unfold Rdiv. rewrite Rmult_assoc, Rinv_l by lra. nra.
Qed.

End RunFacts.

(* ----------------------------------------------------------------- *)
(** ** The divergence metric *)

Lemma INR_ge_2 (n : nat) : (2 <= n)%nat -> 2 <= INR n.
Proof. intros large. change 2 with (INR 2). now apply le_INR. Qed.

Lemma mean_nonempty (xs : list R) :
  (1 <= length xs)%nat -> Np.mean xs = Np.Real (Np.total xs / INR (length xs)).
Proof. destruct xs; cbn [length]; [lia|reflexivity]. Qed.

Lemma cov_is_sample_covariance (xs : list R) :
  (2 <= length xs)%nat -> Np.cov xs = Np.Real (sample_covariance xs).
Proof.
  intros large. unfold Np.cov, sample_covariance.
  destruct (Nat.leb_spec (length xs) 1) as [small|_]; [lia|].
  rewrite map_map. f_equal.
  pose proof (INR_ge_2 _ large). field. lra.
Qed.

Lemma covariances_differ_by_factor (xs : list R) :
  (2 <= length xs)%nat ->
  sample_covariance xs * (INR (length xs) - 1)
  = population_covariance xs * INR (length xs).
Proof.
  intros large. unfold sample_covariance, population_covariance.
  pose proof (INR_ge_2 _ large). field. lra.
Qed.

(** The divergence in closed form, whenever it is a real number. *)
Lemma kl_divergence_closed_form (d : NormalDist) (xs : list R) (m0 s0 : R) :
  Np.mean xs = Np.Real m0 ->
  Np.cov xs = Np.Real s0 ->
  0 < _sigma d / s0 ->
  kl_divergence d xs = Return (Np.Real (gaussian_kl d m0 s0)).
Proof.
  intros mean_is cov_is ratio.
  assert (_sigma d <> 0) as regular.
  { intros singular. rewrite singular in ratio. unfold Rdiv in ratio.
    rewrite Rmult_0_l in ratio. lra. }
  assert (s0 <> 0) as spread.
  { intros flat. rewrite flat in ratio. unfold Rdiv in ratio.
    rewrite Rinv_0, Rmult_0_r in ratio. lra. }
  unfold kl_divergence. rewrite mean_is, cov_is.
  unfold Np.linalg_inv. destruct (Req_dec_T (_sigma d) 0) as [e|_]; [contradiction|].
  unfold dkl3, Np.divide, Np.linalg_det.
  destruct (Req_dec_T s0 0) as [e|_]; [contradiction|].
  cbn [Np.log]. destruct (Rlt_dec 0 (_sigma d / s0)) as [_|no]; [|contradiction].
  unfold gaussian_kl, dkl1, dkl2, Np.trace, Np.dot.
  do 2 f_equal. field. assumption.
Qed.

(** C6, as the code has it.  For at least two samples the metric takes
    the mean of the samples and their covariance as [np.cov] gives it by
    default: the sample-corrected one, with divisor [n - 1], which is
    [n / (n - 1)] times the population covariance; the divergence is the
    closed form at these two values. *)
Theorem kl_divergence_uses_sample_covariance (d : NormalDist) (xs : list R) :
  (2 <= length xs)%nat ->
  let n := INR (length xs) in
  Np.mean xs = Np.Real (Np.total xs / n) /\
  Np.cov xs = Np.Real (sample_covariance xs) /\
  sample_covariance xs * (n - 1) = population_covariance xs * n /\
  (0 < _sigma d / sample_covariance xs ->
   kl_divergence d xs
   = Return (Np.Real (gaussian_kl d (Np.total xs / n) (sample_covariance xs)))).
Proof.
  intros large. cbv zeta.
  assert (Np.mean xs = Np.Real (Np.total xs / INR (length xs))) as mean_is
    by (apply mean_nonempty; lia).
  pose proof (cov_is_sample_covariance xs large) as cov_is.
  repeat split; try assumption.
  - now apply covariances_differ_by_factor.
  - intros ratio. now apply kl_divergence_closed_form.
Qed.

(** C7.  When the mean and covariance the metric computes from the
    samples equal the target's (a target with one parameter and a
    regular covariance), the trace term is 1, the quadratic term is 0,
    the logarithmic term is 0, and the divergence is 0. *)
Theorem kl_divergence_zero_at_target (mean sigma : R) (xs : list R) :
  sigma <> 0 ->
  Np.mean xs = Np.Real mean ->
  Np.cov xs = Np.Real sigma ->
  dkl1 (/ sigma) sigma = 1 /\
  dkl2 mean mean (/ sigma) = 0 /\
  dkl3 sigma sigma = Np.Real 0 /\
  Np.linalg_inv sigma = Some (/ sigma) /\
  kl_divergence (NormalDist_init mean sigma) xs = Return (Np.Real 0).
Proof.
  intros regular mean_is cov_is.
  assert (sigma / sigma = 1) as unit by (field; assumption).
  assert (dkl3 sigma sigma = Np.Real 0) as log_term.
  { unfold dkl3, Np.divide, Np.linalg_det.
    destruct (Req_dec_T sigma 0) as [e|_]; [contradiction|].
    cbn [Np.log]. rewrite unit.
    destruct (Rlt_dec 0 1) as [_|no]; [now rewrite ln_1|lra]. }
  assert (Np.linalg_inv sigma = Some (/ sigma)) as inverse.
  { unfold Np.linalg_inv. now destruct (Req_dec_T sigma 0). }
  assert (dkl1 (/ sigma) sigma = 1) as trace_term
    by (unfold dkl1, Np.trace, Np.dot; now apply Rinv_l).
  assert (dkl2 mean mean (/ sigma) = 0) as quadratic_term
    by (unfold dkl2, Np.dot; ring).
  repeat split; try assumption.
  unfold kl_divergence. rewrite mean_is, cov_is.
  cbn [_sigma _mean _n_parameters NormalDist_init].
  rewrite inverse, log_term, trace_term, quadratic_term.
  do 2 f_equal. cbn [INR]. lra.
Qed.

(* ----------------------------------------------------------------- *)
(** ** The experiment driver *)

Section DriverFacts.

Context {Rest Sigma NpRandom : Type}.
Context {L : Library R Rest Sigma NpRandom}.
Variable log_pdf : NormalDist -> R -> R.

Implicit Types (w : World NpRandom) (r : nat) (start_breaking : Z) (freq : R).

(** The target of [get_klds] has a regular covariance, so the metric
    never raises on it. *)
Lemma kl_divergence_posterior_returns (xs : list R) :
  exists kld, kl_divergence posterior xs = Return kld.
Proof.
  unfold kl_divergence, posterior, NormalDist_init.
  cbn [_sigma _mean _n_parameters]. unfold Np.linalg_inv.
  destruct (Req_dec_T (0.1 ^ 2) 0) as [singular|_]; [lra|].
  destruct (Np.mean xs); [|eauto].
  destruct (Np.cov xs) as [s0|]; [|eauto].
  destruct (dkl3 s0 (0.1 ^ 2)); eauto.
Qed.

Lemma one_run_from r start_breaking freq w kld :
  kl_divergence posterior (chain_of_run log_pdf r start_breaking freq w)
  = Return kld ->
  one_run log_pdf r start_breaking freq
    (world_before log_pdf r start_breaking freq w)
  = Return (kld, world_before log_pdf (S r) start_breaking freq w).
Proof.
  unfold one_run, chain_of_run. cbn [world_before].
  destruct (run (configure log_pdf r start_breaking freq)
              (world_before log_pdf r start_breaking freq w))
    as [[chains mcmc] w'].
  cbn [fst snd]. now intros ->.
Qed.

(** The loop over [range(num_runs)], from run [a] on. *)
Lemma runs_loop_seq start_breaking freq w (k : nat) :
  forall (a : nat) (done : list Np.float64),
  exists klds,
    runs_loop log_pdf (seq a k) start_breaking freq done
      (world_before log_pdf a start_breaking freq w)
    = Return (done ++ klds,
              world_before log_pdf (a + k) start_breaking freq w) /\
    length klds = k /\
    forall i, (i < k)%nat ->
      kl_divergence posterior
        (chain_of_run log_pdf (a + i) start_breaking freq w)
      = Return (nth i klds Np.NonFinite).
Proof.
  induction k as [|k IH]; intros a done.
  - exists []. cbn [seq runs_loop]. rewrite app_nil_r, Nat.add_0_r.
    repeat split. intros i impossible. lia.
  - destruct (kl_divergence_posterior_returns
                (chain_of_run log_pdf a start_breaking freq w))
      as [kld value].
    destruct (IH (S a) (done ++ [kld])) as (later & looped & len & entries).
    exists (kld :: later). cbn [seq runs_loop].
    rewrite (one_run_from _ _ _ _ _ value), looped.
    rewrite <- app_assoc, Nat.add_succ_r. cbn [app length].
    repeat split; [congruence|].
    intros [|i] below.
    + now rewrite Nat.add_0_r.
    + rewrite Nat.add_succ_r. cbn [nth]. apply entries. lia.
Qed.

Lemma configure_sampler r start_breaking freq :
  _sampler (configure log_pdf r start_breaking freq)
  = {| super := super_init x0 None;
       error_freq := if (Z.of_nat r >=? start_breaking)%Z
                     then freq else 0 |}.
Proof.
  unfold configure. now destruct (Z.of_nat r >=? start_breaking)%Z.
Qed.

Lemma configure_max_iterations r start_breaking freq :
  _max_iterations (configure log_pdf r start_breaking freq) = 1000%nat.
Proof.
  unfold configure. now destruct (Z.of_nat r >=? start_breaking)%Z.
Qed.

Lemma configure_before_breaking r start_breaking freq start_breaking' :
  (Z.of_nat r < start_breaking)%Z ->
  configure log_pdf r start_breaking freq
  = configure log_pdf r start_breaking' 0.
Proof.
  intros before. unfold configure.
  destruct (Z.geb_spec (Z.of_nat r) start_breaking) as [reached|_]; [lia|].
  now destruct (Z.of_nat r >=? start_breaking')%Z.
Qed.

Lemma runs_loop_same_settings start_breaking freq start_breaking' freq'
  (runs : list nat) :
  (forall r, In r runs ->
     configure log_pdf r start_breaking freq
     = configure log_pdf r start_breaking' freq') ->
  forall done w,
    runs_loop log_pdf runs start_breaking freq done w
    = runs_loop log_pdf runs start_breaking' freq' done w.
Proof.
  induction runs as [|r runs IH]; intros same done w; [reflexivity|].
  cbn [runs_loop]. unfold one_run. rewrite (same r) by now left.
  destruct (run (configure log_pdf r start_breaking' freq') w)
    as [[chains mcmc] w'].
  destruct (kl_divergence posterior (nth 0 chains [])); [|reflexivity].
  apply IH. intros r' member. apply same. now right.
Qed.

(** When the breaking point is not below the number of runs, the
    error frequency plays no part. *)
Lemma get_klds_never_broken (num_runs : nat) start_breaking freq
  start_breaking' w :
  (Z.of_nat num_runs <= start_breaking)%Z ->
  get_klds log_pdf num_runs start_breaking freq w
  = get_klds log_pdf num_runs start_breaking' 0 w.
Proof.
  intros beyond. unfold get_klds. apply runs_loop_same_settings.
  intros r member. apply in_seq in member.
  apply configure_before_breaking. lia.
Qed.

(** C4.  [get_klds] returns a list of [num_runs] divergences, one per
    run and in run order.  Run [r] uses a new controller and a new
    sampler built from the fixed start point (no iteration made,
    acceptance rate 0), whose error frequency is [error_freq] when
    [r >= start_breaking] and 0 otherwise; the loop makes exactly 1000
    iterations; entry [r] is the divergence of that run's chain from
    the fixed target. *)
Theorem get_klds_runs (num_runs : nat) start_breaking freq w :
  fresh_counters L ->
  exists klds w',
    get_klds log_pdf num_runs start_breaking freq w = Return (klds, w') /\
    w' = world_before log_pdf num_runs start_breaking freq w /\
    length klds = num_runs /\
    forall r, (r < num_runs)%nat ->
      let mcmc := configure log_pdf r start_breaking freq in
      let s := _sampler mcmc in
      super s = super_init x0 None /\
      _iterations (super s) = 0%nat /\
      _acceptance (super s) = 0 /\
      error_freq s = (if (Z.of_nat r >=? start_breaking)%Z then freq else 0) /\
      _max_iterations mcmc = 1000%nat /\
      length (trace_of_run log_pdf r start_breaking freq w) = 1000%nat /\
      kl_divergence posterior (chain_of_run log_pdf r start_breaking freq w)
      = Return (nth r klds Np.NonFinite).
Proof.
  intros fresh.
  destruct (runs_loop_seq start_breaking freq w num_runs 0 [])
    as (klds & looped & len & entries).
  exists klds, (world_before log_pdf num_runs start_breaking freq w).
  split; [exact looped|]. split; [reflexivity|]. split; [exact len|].
  intros r below. cbv zeta.
  rewrite configure_sampler. cbn [super error_freq].
  destruct (fresh x0 None) as [count rate].
  repeat split; try assumption.
  - apply configure_max_iterations.
  - unfold trace_of_run. rewrite trace_length. apply configure_max_iterations.
  - now apply entries.
Qed.

(** C5.  [get_klds(10, 10, 0.5)] gives what [get_klds] gives with
    error frequency 0 (whatever the breaking point): no run index below
    10 reaches the breaking point 10, so every sampler keeps error
    frequency 0. *)
Theorem get_klds_breaking_point_beyond_runs w :
  (forall start_breaking,
     get_klds log_pdf 10 10 0.5 w = get_klds log_pdf 10 start_breaking 0 w) /\
  (forall r, (r < 10)%nat ->
     error_freq (_sampler (configure log_pdf r 10 0.5)) = 0).
Proof.
  split.
  - intros start_breaking. apply get_klds_never_broken. lia.
  - intros r below. rewrite configure_sampler. cbn [error_freq].
    destruct (Z.geb_spec (Z.of_nat r) 10); [lia|reflexivity].
Qed.

End DriverFacts.

(* ----------------------------------------------------------------- *)
(** ** The properties at concrete inputs *)

Lemma Metropolis1D_ask_protocol stream normal uniform :
  ask_protocol (Metropolis1D.library stream normal uniform).
Proof.
  intros b w. cbn [super_ask Metropolis1D.library]. unfold Metropolis1D.ask.
  destruct (_proposed b) as [x|] eqn:pending.
  - now repeat split.
  - destruct (_current b); now repeat split.
Qed.

Lemma Metropolis1D_fresh_counters stream normal uniform :
  fresh_counters (Metropolis1D.library stream normal uniform).
Proof. intros x0 sigma0. now split. Qed.

Lemma world0_peek : PyRandom.peek (random_state Metropolis1D.world0) = 0.
Proof.
  unfold PyRandom.peek, PyRandom.two53. cbn. unfold Rdiv. now rewrite Rmult_0_l.
Qed.

Lemma matching_samples_mean : Np.mean matching_samples = Np.Real 1.
Proof.
  unfold Np.mean, matching_samples, Np.total. cbn [fold_right length INR].
  f_equal. lra.
Qed.

Lemma matching_samples_cov : Np.cov matching_samples = Np.Real (0.1 ^ 2).
Proof.
  unfold Np.cov, matching_samples, Np.total.
  cbn [fold_right length INR map Nat.leb]. f_equal. lra.
Qed.

(** C1 at a concrete input: three forced iterations from a new
    sampler. *)
Lemma always_failing_sampler_witness :
  ask_protocol Metropolis1D.lib0 /\
  error_freq always_failing = 1 /\
  chain_of (trace_of (L := Metropolis1D.lib0) (fun _ => 0) 3 always_failing Metropolis1D.world0)
  = proposals (trace_of (L := Metropolis1D.lib0) (fun _ => 0) 3 always_failing Metropolis1D.world0) /\
  _acceptance (super (sampler_after (L := Metropolis1D.lib0) (fun _ => 0) 3 always_failing Metropolis1D.world0))
  = INR 3 / (INR 3 + INR 0).
Proof.
  pose proof (always_failing_sampler_accepts_everything
                (L := Metropolis1D.lib0) (fun _ => 0) always_failing Metropolis1D.world0
                (Metropolis1D_ask_protocol _ _ _) eq_refl)
    as (_ & run_facts & _ & rate_facts).
  split; [apply Metropolis1D_ask_protocol|].
  split; [reflexivity|].
  split.
  - apply (run_facts 3%nat).
  - apply (proj1 (rate_facts eq_refl) 3%nat). lia.
Defined.

(** C2 at a concrete input: a new sampler, never configured. *)
Lemma tell_without_faults_witness :
  error_freq (BrokenMH_init (L := Metropolis1D.lib0) 1 None) = 0 /\
  tell_branch (BrokenMH_init (L := Metropolis1D.lib0) 1 None) Metropolis1D.world0 = MHStep.
Proof.
  split; [reflexivity|].
  exact (proj1 (tell_without_faults_is_super_tell
                  (L := Metropolis1D.lib0) (BrokenMH_init (L := Metropolis1D.lib0) 1 None) 0 Metropolis1D.world0
                  eq_refl)).
Defined.

(** C3 at a concrete input: error frequency 1/2 and a drawn value 0. *)
Lemma tell_forced_accept_witness :
  let s := set_error_freq (BrokenMH_init (L := Metropolis1D.lib0) 1 None) (/ 2) in
  (0 < error_freq s /\ PyRandom.peek (random_state Metropolis1D.world0) <= error_freq s) /\
  tell_branch s Metropolis1D.world0 = ForcedAccept.
Proof.
  cbv zeta.
  assert (0 < / 2 /\ PyRandom.peek (random_state Metropolis1D.world0) <= / 2) as forced
    by (rewrite world0_peek; lra).
  split; [exact forced|].
  exact (proj2 (proj1 (tell_forced_accept_step
                         (L := Metropolis1D.lib0)
                         (set_error_freq (BrokenMH_init (L := Metropolis1D.lib0) 1 None) (/ 2))
                         0 Metropolis1D.world0))
               forced).
Defined.

(** C4 at a concrete input: three runs, broken from the second on. *)
Lemma get_klds_runs_witness :
  fresh_counters Metropolis1D.lib0 /\
  exists klds w',
    get_klds (L := Metropolis1D.lib0) (fun _ _ => 0) 3 1 0.5 Metropolis1D.world0 = Return (klds, w') /\
    length klds = 3%nat.
Proof.
  split; [apply Metropolis1D_fresh_counters|].
  destruct (get_klds_runs (L := Metropolis1D.lib0) (fun _ _ => 0) 3 1 0.5 Metropolis1D.world0
              (Metropolis1D_fresh_counters _ _ _))
    as (klds & w' & returned & _ & len & _).
  exists klds, w'. now split.
Defined.

(** C6 refuted as stated: for the two samples 0 and 2 the metric's
    covariance is 2, the population covariance is 1. *)
Lemma population_covariance_counterexample :
  (2 <= length [0; 2])%nat /\
  Np.cov [0; 2] = Np.Real 2 /\
  population_covariance [0; 2] = 1 /\
  Np.cov [0; 2] <> Np.Real (population_covariance [0; 2]).
Proof.
  assert (Np.cov [0; 2] = Np.Real 2) as code.
  { unfold Np.cov, Np.total. cbn [fold_right length INR map Nat.leb].
    f_equal. lra. }
  assert (population_covariance [0; 2] = 1) as said.
  { unfold population_covariance, Np.total. cbn [fold_right length INR map].
    lra. }
  repeat split; try assumption.
  - cbn. lia.
  - rewrite code, said. intros same. injection same as same. lra.
Qed.

(** C6 at a concrete input: the target of [get_klds] and three
    samples. *)
Lemma kl_divergence_sample_covariance_witness :
  (2 <= length matching_samples)%nat /\
  Np.cov matching_samples = Np.Real (sample_covariance matching_samples).
Proof.
  assert (2 <= length matching_samples)%nat as large by (cbn; lia).
  split; [exact large|].
  exact (proj1 (proj2 (kl_divergence_uses_sample_covariance
                         posterior matching_samples large))).
Defined.

(** C7 at a concrete input: the target of [get_klds] and three samples
    with its mean and covariance. *)
Lemma kl_divergence_zero_witness :
  0.1 ^ 2 <> 0 /\
  Np.mean matching_samples = Np.Real 1 /\
  Np.cov matching_samples = Np.Real (0.1 ^ 2) /\
  kl_divergence posterior matching_samples = Return (Np.Real 0).
Proof.
  assert (0.1 ^ 2 <> 0) as regular by lra.
  split; [exact regular|].
  split; [exact matching_samples_mean|].
  split; [exact matching_samples_cov|].
  exact (proj2 (proj2 (proj2 (proj2
           (kl_divergence_zero_at_target 1 (0.1 ^ 2) matching_samples
              regular matching_samples_mean matching_samples_cov))))).
Defined.

(** C8 refuted as stated: with error frequency 0, which lies in
    [[0,1]], the condition of [tell] draws nothing. *)
Lemma tell_draw_counterexample :
  let s := BrokenMH_init (L := Metropolis1D.lib0) 1 None in
  0 <= error_freq s <= 1 /\
  draws_taken (error_freq s) (random_state Metropolis1D.world0) = 0%nat /\
  draws_taken (error_freq s) (random_state Metropolis1D.world0) <> 1%nat /\
  random_state (snd (tell (L := Metropolis1D.lib0) s 0 Metropolis1D.world0)) = random_state Metropolis1D.world0.
Proof.
  cbv zeta. cbn [error_freq BrokenMH_init].
  split; [lra|]. rewrite draws_taken_zero.
  split; [reflexivity|]. split; [lia|].
  rewrite tell_disabled by reflexivity. reflexivity.
Qed.

(** C8 at a concrete input: error frequency 1/2. *)
Lemma tell_draws_witness :
  let s := set_error_freq (BrokenMH_init (L := Metropolis1D.lib0) 1 None) (/ 2) in
  error_freq s <> 0 /\
  draws_taken (error_freq s) (random_state Metropolis1D.world0) = 1%nat.
Proof.
  cbv zeta.
  assert (/ 2 <> 0) as on by lra.
  split; [exact on|].
  exact (proj1 (proj1 (tell_draws_unless_disabled
                         (L := Metropolis1D.lib0)
                         (set_error_freq (BrokenMH_init (L := Metropolis1D.lib0) 1 None) (/ 2))
                         0 Metropolis1D.world0)
                      on)).
Defined.

(** C10 at a concrete input: a new sampler after one [ask]. *)
Lemma fresh_sampler_witness :
  let s := snd (fst (ask (L := Metropolis1D.lib0) (BrokenMH_init (L := Metropolis1D.lib0) 1 None) Metropolis1D.world0)) in
  never_configured (L := Metropolis1D.lib0) s /\
  tell_branch s Metropolis1D.world0 = MHStep.
Proof.
  cbv zeta.
  assert (never_configured (L := Metropolis1D.lib0)
            (snd (fst (ask (L := Metropolis1D.lib0) (BrokenMH_init (L := Metropolis1D.lib0) 1 None) Metropolis1D.world0))))
    as reach by (apply nc_ask, nc_init).
  split; [exact reach|].
  exact (proj1 (proj2 (proj2 (@fresh_sampler_never_forces _ _ _ _ Metropolis1D.lib0)
                         _ reach 0 Metropolis1D.world0))).
Defined.

(* ----------------------------------------------------------------- *)
(** ** Reproducibility *)

Section SamplerDeterminism.

Context {Point Rest Sigma NpRandom : Type}.
Context {O : Outcomes Point Rest Sigma NpRandom}.
Hypothesis library_answers_once : deterministic_library O.

Lemma tell_outcome_unique (s : BrokenMH Point Rest) fx w out1 out2 :
  tell_outcome s fx w out1 -> tell_outcome s fx w out2 -> out1 = out2.
Proof.
  destruct library_answers_once as (_ & _ & tell_once).
  intros first second.
  destruct first as [g y b w' arm told | g arm];
    destruct second as [g' y' b' w'' arm' told' | g' arm'];
    rewrite arm in arm'; try discriminate; injection arm' as <-.
  - pose proof (tell_once _ _ _ _ _ told told') as same.
    injection same as <- <- <-. reflexivity.
  - reflexivity.
Qed.

Lemma iterate_outcome_unique (log_pdf : Point -> R) n s w out1 :
  iterate_outcome log_pdf n s w out1 ->
  forall out2, iterate_outcome log_pdf n s w out2 -> out1 = out2.
Proof.
  destruct library_answers_once as (_ & ask_once & _).
  induction 1 as [s w | n s w x b1 w1 y s2 w2 later s3 w3 asked told _ IH];
    intros out2 second.
  - now inversion second.
  - inversion second as [| n' s' w' x' b1' w1' y' s2' w2' later' s3' w3'
                           asked' told' rest']; subst.
    pose proof (ask_once _ _ _ _ asked asked') as same.
    injection same as <- <- <-.
    pose proof (tell_outcome_unique _ _ _ _ _ told told') as same.
    injection same as <- <- <-.
    pose proof (IH _ rest') as same.
    injection same as <- <- <-. reflexivity.
Qed.

End SamplerDeterminism.

Section DriverDeterminism.

Context {Rest Sigma NpRandom : Type}.
Context {O : Outcomes R Rest Sigma NpRandom}.
Variable log_pdf : NormalDist -> R -> R.
Hypothesis library_answers_once : deterministic_library O.

Lemma one_run_outcome_unique r start_breaking freq w out1 out2 :
  one_run_outcome log_pdf r start_breaking freq w out1 ->
  one_run_outcome log_pdf r start_breaking freq w out2 ->
  out1 = out2.
Proof.
  destruct library_answers_once as (init_once & _).
  intros first second.
  destruct first as [mcmc trace s w' [b built] looped].
  destruct second as [mcmc' trace' s' w'' [b' built'] looped'].
  pose proof (init_once _ _ _ _ built built') as <-.
  pose proof (iterate_outcome_unique library_answers_once _ _ _ _ _ looped
                _ looped') as same.
  injection same as <- <- <-. reflexivity.
Qed.

Lemma runs_outcome_unique start_breaking freq runs klds w out1 :
  runs_outcome log_pdf start_breaking freq runs klds w out1 ->
  forall out2,
    runs_outcome log_pdf start_breaking freq runs klds w out2 -> out1 = out2.
Proof.
  induction 1 as [klds w | r later klds w kld w' out ran _ IH
                  | r later klds w e ran];
    intros out2 second.
  - now inversion second.
  - inversion second as [| r' later' klds' w0 kld' w'' out' ran' rest'
                         | r' later' klds' w0 e' ran']; subst.
    + pose proof (one_run_outcome_unique _ _ _ _ _ _ ran ran') as same.
      injection same as <- <-. now apply IH.
    + pose proof (one_run_outcome_unique _ _ _ _ _ _ ran ran') as same.
      discriminate.
  - inversion second as [| r' later' klds' w0 kld' w'' out' ran' rest'
                         | r' later' klds' w0 e' ran']; subst.
    + pose proof (one_run_outcome_unique _ _ _ _ _ _ ran ran') as same.
      discriminate.
    + pose proof (one_run_outcome_unique _ _ _ _ _ _ ran ran') as same.
      now injection same as <-.
Qed.

(** C9.  Given that each call of the library has one result for the
    state and generators it is called with, [get_klds] is reproducible:
    two executions with the same arguments, after seeding both
    generators with the same seeds, give the same divergences (and
    leave the same generators), whatever the generators held before
    seeding.  So does the experiment cell. *)
Theorem get_klds_deterministic (num_runs : nat) (start_breaking : Z) (freq : R)
  (a b : Z) (w1 w2 : World NpRandom)
  (out1 out2 : result (list Np.float64 * World NpRandom)) :
  (get_klds_outcome log_pdf num_runs start_breaking freq (seed_world a b w1) out1 ->
   get_klds_outcome log_pdf num_runs start_breaking freq (seed_world a b w2) out2 ->
   out1 = out2) /\
  (experiment_outcome log_pdf w1 out1 -> experiment_outcome log_pdf w2 out2 ->
   out1 = out2).
Proof.
  unfold experiment_outcome, get_klds_outcome.
  split; intros first second;
    exact (runs_outcome_unique _ _ _ _ _ _ first _ second).
Qed.

End DriverDeterminism.

(** The functional model is this program against a library of
    functions: what [tell], [iterate] and [get_klds] compute is a
    result the program may give. *)
Section FunctionalLibrary.

Context {Rest Sigma NpRandom : Type}.
Context (L : Library R Rest Sigma NpRandom).
Variable log_pdf : NormalDist -> R -> R.

Lemma outcomes_of_deterministic : deterministic_library (outcomes_of L).
Proof. repeat split; cbn; intros; congruence. Qed.

Lemma tell_is_outcome (s : BrokenMH R Rest) fx w :
  tell_outcome (O := outcomes_of L) s fx w (tell s fx w).
Proof.
  unfold tell.
  destruct (fault_decision (error_freq s) (random_state w)) as [[|] g] eqn:arm.
  - unfold delegate.
    destruct (super_tell (super s) fx (with_random w g)) as [[y b] w'] eqn:told.
    apply tell_delegates with (g := g); [exact arm|]. cbn. now rewrite told.
  - cbn [forced_accept]. exact (tell_forces s fx w g arm).
Qed.

Lemma iterate_is_outcome (f : R -> R) n :
  forall (s : BrokenMH R Rest) w,
    iterate_outcome (O := outcomes_of L) f n s w (iterate f n s w).
Proof.
  induction n as [|n IH]; intros s w; [apply iterate_done|].
  cbn [iterate]. unfold ask.
  destruct (super_ask (super s) w) as [[x b1] w1] eqn:asked.
  pose proof (tell_is_outcome {| super := b1; error_freq := error_freq s |}
                (f x) w1) as told.
  destruct (tell {| super := b1; error_freq := error_freq s |} (f x) w1)
    as [[y s2] w2].
  pose proof (IH s2 w2) as rest.
  destruct (iterate f n s2 w2) as [[later s3] w3].
  eapply iterate_step; [|exact told|exact rest]. cbn. now rewrite asked.
Qed.

Lemma one_run_is_outcome r start_breaking freq w :
  one_run_outcome (O := outcomes_of L) log_pdf r start_breaking freq w
    (one_run log_pdf r start_breaking freq w).
Proof.
  unfold one_run, run.
  pose proof (iterate_is_outcome
                (_log_pdf (configure log_pdf r start_breaking freq))
                (_max_iterations (configure log_pdf r start_breaking freq))
                (_sampler (configure log_pdf r start_breaking freq)) w) as looped.
  destruct (iterate (_log_pdf (configure log_pdf r start_breaking freq))
              (_max_iterations (configure log_pdf r start_breaking freq))
              (_sampler (configure log_pdf r start_breaking freq)) w)
    as [[trace s] w'].
  apply one_run_ends with (mcmc := configure log_pdf r start_breaking freq)
                          (s := s); [|exact looped].
  exact (configured (O := outcomes_of L) log_pdf r start_breaking freq
           (super_init x0 None) eq_refl).
Qed.

Lemma get_klds_is_outcome (num_runs : nat) start_breaking freq w :
  get_klds_outcome (O := outcomes_of L) log_pdf num_runs start_breaking freq w
    (get_klds log_pdf num_runs start_breaking freq w).
Proof.
  unfold get_klds_outcome, get_klds.
  generalize (seq 0 num_runs) as runs, (@nil Np.float64) as klds. intros runs.
  revert w. induction runs as [|r later IH]; intros w klds; [apply runs_done|].
  cbn [runs_loop].
  pose proof (one_run_is_outcome r start_breaking freq w) as ran.
  destruct (one_run log_pdf r start_breaking freq w) as [[kld w']|e].
  - eapply runs_next; [exact ran|apply IH].
  - now apply runs_raise.
Qed.

End FunctionalLibrary.

(** C9 at a concrete input: three runs against the instance, seeded
    from two different generator states. *)
Lemma get_klds_deterministic_witness :
  let O := outcomes_of Metropolis1D.lib0 in
  let w1 := Metropolis1D.world0 in
  let w2 := with_random Metropolis1D.world0
              (PyRandom.advance (random_state Metropolis1D.world0)) in
  deterministic_library O /\
  get_klds_outcome (O := O) (fun _ _ => 0) 3 1 0.5 (seed_world (O := O) 7 8 w1)
    (get_klds (L := Metropolis1D.lib0) (fun _ _ => 0) 3 1 0.5
       (seed_generators (L := Metropolis1D.lib0) 7 8 w1)) /\
  forall out,
    get_klds_outcome (O := O) (fun _ _ => 0) 3 1 0.5 (seed_world (O := O) 7 8 w2) out ->
    get_klds (L := Metropolis1D.lib0) (fun _ _ => 0) 3 1 0.5
      (seed_generators (L := Metropolis1D.lib0) 7 8 w1)
    = out.
Proof.
  cbv zeta.
  pose proof (outcomes_of_deterministic Metropolis1D.lib0) as once.
  pose proof (get_klds_is_outcome Metropolis1D.lib0 (fun _ _ => 0) 3 1 0.5
                (seed_generators (L := Metropolis1D.lib0) 7 8 Metropolis1D.world0))
    as first.
  split; [exact once|]. split; [exact first|].
  intros out second.
  exact (proj1 (get_klds_deterministic
                  (O := outcomes_of Metropolis1D.lib0) (fun _ _ => 0) once
                  3 1 0.5 7 8 Metropolis1D.world0
                  (with_random Metropolis1D.world0
                     (PyRandom.advance (random_state Metropolis1D.world0)))
                  _ out)
               first second).
Defined.

(* ================================================================= *)
(** * Part III: further properties of the code *)

(* ----------------------------------------------------------------- *)
(** ** The sampler over a run *)

Section SamplerInvariants.

Context {Point Rest Sigma NpRandom : Type}.
Context {L : Library Point Rest Sigma NpRandom}.

Implicit Types (s : BrokenMH Point Rest) (w : World NpRandom) (fx : R).

Lemma sampler_after_error_freq (log_pdf : Point -> R) n :
  forall s w, error_freq (sampler_after log_pdf n s w) = error_freq s.
Proof.
  unfold sampler_after. induction n as [|n IH]; intros s w; [reflexivity|].
  rewrite iterate_S. cbn [fst snd].
  now rewrite IH, tell_error_freq, ask_error_freq.
Qed.

(** X1.  The error frequency is fixed for the whole of a run: neither
    arm of [tell] nor [ask] writes it, so after any number of
    iterations, and after [run], the sampler has the frequency it was
    configured with. *)
Theorem error_freq_fixed_during_run (c : MCMCController Point Rest) w :
  error_freq (_sampler (snd (fst (run c w)))) = error_freq (_sampler c) /\
  forall n, error_freq (sampler_after (_log_pdf c) n (_sampler c) w)
            = error_freq (_sampler c).
Proof.
  split; [|intros n; apply sampler_after_error_freq].
  pose proof (sampler_after_error_freq (_log_pdf c) (_max_iterations c)
                (_sampler c) w) as kept.
  unfold sampler_after in kept. unfold run.
  now destruct (iterate (_log_pdf c) (_max_iterations c) (_sampler c) w)
    as [[trace s'] w'].
Qed.

(** X2.  A forced step keeps the acceptance rate a rate: from a rate
    in [[0,1]] the new rate is again at most 1, is positive, and is not
    below the old one; the iteration count grows by one. *)
Theorem forced_step_keeps_rate_in_range s fx w :
  tell_branch s w = ForcedAccept ->
  0 <= _acceptance (super s) <= 1 ->
  let s' := snd (fst (tell s fx w)) in
  _acceptance (super s) <= _acceptance (super s') <= 1 /\
  0 < _acceptance (super s') /\
  _iterations (super s') = S (_iterations (super s)).
Proof.
  intros forced range. cbv zeta.
  unfold tell_branch in forced. unfold tell.
  destruct (fault_decision (error_freq s) (random_state w)) as [[|] g];
    cbn [fst] in forced; [discriminate|].
  cbn [forced_accept fst snd super _acceptance _iterations].
  pose proof (pos_INR (_iterations (super s))) as k_pos.
  set (k := INR (_iterations (super s))) in *.
  set (a := _acceptance (super s)) in *.
  assert (0 < k + 1) as den by lra.
  assert (0 < / (k + 1)) as inv_pos by now apply Rinv_0_lt_compat.
  assert ((k * a + 1) / (k + 1) - a = (1 - a) * / (k + 1)) as gain
    by (field; lra).
  assert (1 - (k * a + 1) / (k + 1) = k * (1 - a) * / (k + 1)) as room
    by (field; lra).
  assert (0 <= (1 - a) * / (k + 1)) by (apply Rmult_le_pos; lra).
  assert (0 <= k * (1 - a) * / (k + 1))
    by (apply Rmult_le_pos; [apply Rmult_le_pos|]; lra).
  assert (0 < (k * a + 1) / (k + 1))
    by (apply Rmult_lt_0_compat; [|assumption];
        assert (0 <= k * a) by (apply Rmult_le_pos; lra); lra).
  repeat split; try lra.
Qed.

(** X3.  Frequencies outside [[0,1]] are not rejected.  A negative one
    never forces a step, although each [tell] still draws a value
    before delegating; one of 1 or more forces every step. *)
Theorem tell_with_frequency_out_of_range s fx w :
  (error_freq s < 0 ->
   tell_branch s w = MHStep /\
   draws_taken (error_freq s) (random_state w) = 1%nat /\
   tell s fx w
   = delegate s fx (with_random w (PyRandom.advance (random_state w)))) /\
  (1 <= error_freq s ->
   tell_branch s w = ForcedAccept /\
   tell s fx w
   = (_proposed (super s), snd (forced_accept s fx),
      with_random w (PyRandom.advance (random_state w)))).
Proof.
  pose proof (peek_range (random_state w)) as range.
  split.
  - intros negative.
    assert (error_freq s <> 0) as on by lra.
    unfold tell_branch. rewrite tell_enabled, fault_decision_nonzero by assumption.
    cbv zeta.
    destruct (Rgt_dec (PyRandom.peek (random_state w)) (error_freq s)) as [_|no];
      [|lra].
    repeat split. now apply draws_taken_nonzero.
  - intros large.
    assert (error_freq s <> 0) as on by lra.
    unfold tell_branch. rewrite tell_enabled, fault_decision_nonzero by assumption.
    cbv zeta.
    destruct (Rgt_dec (PyRandom.peek (random_state w)) (error_freq s)) as [gt|_];
      [lra|].
    now split.
Qed.

(** The loop with error frequency 0, step by step. *)
Lemma iterate_without_faults (log_pdf : Point -> R) n :
  forall s w,
    error_freq s = 0 ->
    iterate log_pdf n s w
    = (fst (fst (iterate_plain log_pdf n (super s) w)),
       {| super := snd (fst (iterate_plain log_pdf n (super s) w));
          error_freq := 0 |},
       snd (iterate_plain log_pdf n (super s) w)).
Proof.
  induction n as [|n IH]; intros s w off.
  - cbn. destruct s as [b p]. cbn in *. now subst p.
  - cbn [iterate iterate_plain]. unfold ask.
    destruct (super_ask (super s) w) as [[x b1] w1].
    rewrite tell_disabled by exact off. unfold delegate. cbn [super error_freq].
    destruct (super_tell b1 (log_pdf x) w1) as [[y b2] w2].
    rewrite IH by exact off. cbn [super].
    now destruct (iterate_plain log_pdf n b2 w2) as [[later b3] w3].
Qed.

(** X4.  With error frequency 0 a whole run is the run of the
    unmodified sampler: the same proposals and replies, the same chain,
    the same inherited state and the same generators at the end. *)
Theorem run_without_faults_is_plain_run (c : MCMCController Point Rest) w :
  error_freq (_sampler c) = 0 ->
  let plain :=
    iterate_plain (_log_pdf c) (_max_iterations c) (super (_sampler c)) w in
  trace_of (_log_pdf c) (_max_iterations c) (_sampler c) w = fst (fst plain) /\
  fst (fst (run c w)) = [chain_of (fst (fst plain))] /\
  super (_sampler (snd (fst (run c w)))) = snd (fst plain) /\
  snd (run c w) = snd plain.
Proof.
  intros off. cbv zeta. unfold trace_of, run.
  rewrite iterate_without_faults by exact off. cbn [fst snd].
  now repeat split.
Qed.

(** X5.  With error frequency 1 and any starting rate [a] after [k]
    iterations, the rate after [n >= 1] further iterations is
    [(k*a + n) / (k + n)]. *)
Theorem forced_run_rate (log_pdf : Point -> R) s w (n : nat) :
  ask_protocol L ->
  error_freq s = 1 ->
  (1 <= n)%nat ->
  _acceptance (super (sampler_after log_pdf n s w))
  = (INR (_iterations (super s)) * _acceptance (super s) + INR n)
    / (INR (_iterations (super s)) + INR n).
Proof.
  intros protocol one pos.
  destruct (forced_run log_pdf n protocol s w one) as (_ & _ & rate).
  pose proof (pos_INR (_iterations (super s))) as k_pos.
  assert (1 <= INR n) as n_pos by (change 1 with (INR 1); now apply le_INR).
  apply Rmult_eq_reg_r with (INR (_iterations (super s)) + INR n); [|lra].
  rewrite rate. field. lra.
Qed.

End SamplerInvariants.

(* ----------------------------------------------------------------- *)
(** ** The driver across runs *)

Section DriverComposition.

Context {Rest Sigma NpRandom : Type}.
Context {L : Library R Rest Sigma NpRandom}.
Variable log_pdf : NormalDist -> R -> R.

Implicit Types (w : World NpRandom) (r : nat) (start_breaking : Z) (freq : R).

(** What [get_klds] returns, entry by entry. *)
Lemma get_klds_entries (num_runs : nat) start_breaking freq w :
  exists klds,
    get_klds log_pdf num_runs start_breaking freq w
    = Return (klds, world_before log_pdf num_runs start_breaking freq w) /\
    length klds = num_runs /\
    forall r, (r < num_runs)%nat ->
      kl_divergence posterior (chain_of_run log_pdf r start_breaking freq w)
      = Return (nth r klds Np.NonFinite).
Proof.
  destruct (runs_loop_seq log_pdf start_breaking freq w num_runs 0 [])
    as (klds & looped & len & entries).
  exists klds. repeat split; assumption.
Qed.

Lemma configure_same_before_breaking r start_breaking freq freq' :
  (Z.of_nat r < start_breaking)%Z ->
  configure log_pdf r start_breaking freq
  = configure log_pdf r start_breaking freq'.
Proof.
  intros before.
  rewrite (configure_before_breaking log_pdf r start_breaking freq start_breaking)
    by assumption.
  symmetry. now apply configure_before_breaking.
Qed.

Lemma world_before_breaking r start_breaking freq freq' w :
  (Z.of_nat r <= start_breaking)%Z ->
  world_before log_pdf r start_breaking freq w
  = world_before log_pdf r start_breaking freq' w.
Proof.
  induction r as [|r IH]; intros before; [reflexivity|].
  cbn [world_before].
  rewrite IH by lia.
  now rewrite (configure_same_before_breaking r start_breaking freq freq') by lia.
Qed.

(** X10.  Runs do not look ahead: the divergences of the first [m]
    runs of a longer experiment are the result of the experiment with
    [m] runs, for the same breaking point, error frequency and
    generators. *)
Theorem get_klds_prefix (m n : nat) start_breaking freq w :
  (m <= n)%nat ->
  exists klds_n klds_m w_n w_m,
    get_klds log_pdf n start_breaking freq w = Return (klds_n, w_n) /\
    get_klds log_pdf m start_breaking freq w = Return (klds_m, w_m) /\
    firstn m klds_n = klds_m.
Proof.
  intros shorter.
  destruct (get_klds_entries n start_breaking freq w)
    as (klds_n & long & len_n & entries_n).
  destruct (get_klds_entries m start_breaking freq w)
    as (klds_m & short & len_m & entries_m).
  exists klds_n, klds_m. do 2 eexists.
  split; [exact long|]. split; [exact short|].
  apply nth_ext with (d := Np.NonFinite) (d' := Np.NonFinite).
  - rewrite length_firstn. lia.
  - intros i below. rewrite length_firstn in below.
    rewrite nth_firstn. destruct (Nat.ltb_spec i m) as [_|]; [|lia].
    pose proof (entries_n i ltac:(lia)) as from_long.
    pose proof (entries_m i ltac:(lia)) as from_short.
    congruence.
Qed.

(** X11.  The control runs are untouched by the fault setting: for the
    same generators, every entry before the breaking point is the same
    whatever error frequency is passed. *)
Theorem get_klds_control_runs_unaffected
  (num_runs : nat) start_breaking freq freq' w :
  exists klds klds' w1 w2,
    get_klds log_pdf num_runs start_breaking freq w = Return (klds, w1) /\
    get_klds log_pdf num_runs start_breaking freq' w = Return (klds', w2) /\
    forall r, (r < num_runs)%nat -> (Z.of_nat r < start_breaking)%Z ->
      nth r klds Np.NonFinite = nth r klds' Np.NonFinite.
Proof.
  destruct (get_klds_entries num_runs start_breaking freq w)
    as (klds & one & _ & entries).
  destruct (get_klds_entries num_runs start_breaking freq' w)
    as (klds' & other & _ & entries').
  exists klds, klds'. do 2 eexists.
  split; [exact one|]. split; [exact other|].
  intros r below before.
  pose proof (entries r below) as value.
  pose proof (entries' r below) as value'.
  unfold chain_of_run in value, value'.
  rewrite (world_before_breaking r start_breaking freq freq') in value by lia.
  rewrite (configure_same_before_breaking r start_breaking freq freq') in value
    by assumption.
  congruence.
Qed.

(** X12.  The breaking point at its edges: a negative one behaves as 0
    (every run is broken), and with error frequency 0 the breaking
    point plays no part at all. *)
Theorem get_klds_breaking_point_edges (num_runs : nat) start_breaking freq w :
  ((start_breaking <= 0)%Z ->
   get_klds log_pdf num_runs start_breaking freq w
   = get_klds log_pdf num_runs 0 freq w) /\
  (forall start_breaking',
     get_klds log_pdf num_runs start_breaking 0 w
     = get_klds log_pdf num_runs start_breaking' 0 w).
Proof.
  split.
  - intros negative. unfold get_klds. apply runs_loop_same_settings.
    intros r _. unfold configure.
    destruct (Z.geb_spec (Z.of_nat r) start_breaking) as [_|]; [|lia].
    destruct (Z.geb_spec (Z.of_nat r) 0) as [_|]; [reflexivity|lia].
  - intros start_breaking'. unfold get_klds. apply runs_loop_same_settings.
    intros r _. unfold configure.
    now destruct (Z.of_nat r >=? start_breaking)%Z,
                 (Z.of_nat r >=? start_breaking')%Z.
Qed.

End DriverComposition.

(* ----------------------------------------------------------------- *)
(** ** The plotted series *)

Lemma firstn_seq (k a n : nat) : firstn k (seq a n) = seq a (Nat.min k n).
Proof.
  revert a n. induction k as [|k IH]; intros a [|n]; cbn; try reflexivity.
  now rewrite IH.
Qed.

(** X13.  For a posterior matrix with one more row and column than
    there are divergences: with a window of at least 1 and at most the
    number of divergences the two plotted series have the same length,
    the first being the runs [0 .. n - window_size - 1]; with a window
    of 0 the first series is empty ([runs[:-0]] is [runs[:0]]) while
    the second has [n] entries; with a larger window the row index is
    out of range. *)
Theorem changepoint_series_lengths (n : nat) (Rm : list (list R)) (window_size : nat) :
  length Rm = S n ->
  (forall row, In row Rm -> length row = S n) ->
  ((1 <= window_size <= n)%nat ->
   exists ys,
     changepoint_series n Rm window_size = Some (seq 0 (n - window_size), ys) /\
     length ys = (n - window_size)%nat) /\
  (window_size = 0%nat ->
   exists ys,
     changepoint_series n Rm window_size = Some ([], ys) /\ length ys = n) /\
  ((n < window_size)%nat -> changepoint_series n Rm window_size = None).
Proof.
  intros rows columns. unfold changepoint_series.
  destruct (nth_error Rm window_size) as [row|] eqn:found.
  - assert (window_size < length Rm)%nat as inside
      by (apply nth_error_Some; congruence).
    pose proof (columns row (nth_error_In _ _ found)) as wide.
    unfold Py.slice. rewrite length_seq, wide. cbn [Py.slice_bound].
    repeat split.
    + intros [low high]. eexists. split.
      * destruct (Z.ltb_spec (- Z.of_nat window_size) 0) as [_|]; [|lia].
        rewrite Nat.sub_0_r. cbn [skipn]. rewrite firstn_seq.
        do 3 f_equal. lia.
      * destruct (Z.ltb_spec (Z.of_nat window_size) 0) as [|_]; [lia|].
        destruct (Z.ltb_spec (-1) 0) as [_|]; [|lia].
        rewrite length_firstn, length_skipn, wide. lia.
    + intros ->. cbn [Z.of_nat Z.opp].
      destruct (Z.ltb_spec 0 0) as [|_]; [lia|].
      destruct (Z.ltb_spec (-1) 0) as [_|]; [|lia].
      eexists. split; [reflexivity|].
      rewrite length_firstn, length_skipn, wide. lia.
    + intros beyond. lia.
  - apply nth_error_None in found.
    repeat split; intros; lia.
Qed.

(* ----------------------------------------------------------------- *)
(** ** The further properties at concrete inputs *)

Lemma half_frequency_forces_at_world0 :
  tell_branch
    (set_error_freq (BrokenMH_init (L := Metropolis1D.lib0) 1 None) (/ 2))
    Metropolis1D.world0
  = ForcedAccept.
Proof.
  unfold tell_branch. apply fault_decision_forced.
  cbn [error_freq set_error_freq]. rewrite world0_peek. lra.
Qed.

(** X2 at a concrete input: a new sampler with error frequency 1/2 and
    a drawn value 0. *)
Lemma forced_step_rate_witness :
  let s := set_error_freq (BrokenMH_init (L := Metropolis1D.lib0) 1 None) (/ 2) in
  0 <= _acceptance (super s) <= 1 /\
  0 < _acceptance
        (super (snd (fst (tell (L := Metropolis1D.lib0) s 0 Metropolis1D.world0)))).
Proof.
  cbv zeta.
  assert (0 <= 0 <= 1) as range by lra.
  split; [exact range|].
  exact (proj1 (proj2 (forced_step_keeps_rate_in_range
                         (L := Metropolis1D.lib0)
                         (set_error_freq
                            (BrokenMH_init (L := Metropolis1D.lib0) 1 None) (/ 2))
                         0 Metropolis1D.world0
                         half_frequency_forces_at_world0 range))).
Defined.

(** X4 at a concrete input: a controller as constructed, three
    iterations. *)
Lemma run_without_faults_witness :
  let c := set_max_iterations
             (MCMCController_init (L := Metropolis1D.lib0) (fun _ => 0) 1) 3 in
  error_freq (_sampler c) = 0 /\
  snd (run (L := Metropolis1D.lib0) c Metropolis1D.world0)
  = snd (iterate_plain (L := Metropolis1D.lib0) (fun _ => 0) 3
           (super (_sampler c)) Metropolis1D.world0).
Proof.
  cbv zeta. split; [reflexivity|].
  exact (proj2 (proj2 (proj2
           (run_without_faults_is_plain_run
              (L := Metropolis1D.lib0)
              (set_max_iterations
                 (MCMCController_init (L := Metropolis1D.lib0) (fun _ => 0) 1) 3)
              Metropolis1D.world0 eq_refl)))).
Defined.

(** X5 at a concrete input: two forced iterations from a new
    sampler. *)
Lemma forced_run_rate_witness :
  ask_protocol Metropolis1D.lib0 /\
  error_freq always_failing = 1 /\
  (1 <= 2)%nat /\
  _acceptance
    (super (sampler_after (L := Metropolis1D.lib0) (fun _ => 0) 2
              always_failing Metropolis1D.world0))
  = (INR 0 * 0 + INR 2) / (INR 0 + INR 2).
Proof.
  assert (1 <= 2)%nat as pos by lia.
  split; [apply Metropolis1D_ask_protocol|].
  split; [reflexivity|]. split; [exact pos|].
  exact (forced_run_rate (L := Metropolis1D.lib0) (fun _ => 0) always_failing
           Metropolis1D.world0 2 (Metropolis1D_ask_protocol _ _ _) eq_refl pos).
Defined.

(** X10 at a concrete input: two runs of an experiment of three. *)
Lemma get_klds_prefix_witness :
  (2 <= 3)%nat /\
  exists klds_n klds_m w_n w_m,
    get_klds (L := Metropolis1D.lib0) (fun _ _ => 0) 3 1 0.5 Metropolis1D.world0
    = Return (klds_n, w_n) /\
    get_klds (L := Metropolis1D.lib0) (fun _ _ => 0) 2 1 0.5 Metropolis1D.world0
    = Return (klds_m, w_m) /\
    firstn 2 klds_n = klds_m.
Proof.
  assert (2 <= 3)%nat as shorter by lia.
  split; [exact shorter|].
  exact (get_klds_prefix (L := Metropolis1D.lib0) (fun _ _ => 0) 2 3 1 0.5
           Metropolis1D.world0 shorter).
Defined.

(** X13 at a concrete input: two divergences, a 3-by-3 matrix and a
    window of 1. *)
Lemma changepoint_series_witness :
  let Rm := [[0; 0; 0]; [0; 0; 0]; [0; 0; 0]] in
  length Rm = 3%nat /\
  (forall row, In row Rm -> length row = 3%nat) /\
  (1 <= 1 <= 2)%nat /\
  exists ys,
    changepoint_series 2 Rm 1 = Some (seq 0 (2 - 1), ys) /\
    length ys = (2 - 1)%nat.
Proof.
  cbv zeta.
  assert (forall row, In row [[0; 0; 0]; [0; 0; 0]; [0; 0; 0]] ->
                      length row = 3%nat) as columns
    by (intros row [<-|[<-|[<-|[]]]]; reflexivity).
  assert (1 <= 1 <= 2)%nat as window by lia.
  split; [reflexivity|]. split; [exact columns|]. split; [exact window|].
  exact (proj1 (changepoint_series_lengths 2 [[0; 0; 0]; [0; 0; 0]; [0; 0; 0]] 1
                  eq_refl columns)
               window).
Defined.
